(** * swagger-to-raml-object: the resource-listing converter

    A shallow embedding of [lib/resource-listing.js].  The converter is a
    pure function over decoded documents, so the embedding has two layers:

    - [JS]: the fragment of JavaScript the converter relies on (values,
      truthiness, property reads that throw on [undefined] and [null],
      [Object.keys], string conversion, property writes, reads that fall
      through to [Object.prototype]);
    - the converter itself, one definition per source function, written in
      an error monad because every property read can throw. *)

From Stdlib Require Import String Ascii List ZArith Bool Lia.
From Stdlib Require Import Decimal DecimalString.
Import ListNotations.
Open Scope string_scope.

Module JS.

(** ** Completion records

    The converter has no [try]/[catch] and no [throw] of its own: the only
    abrupt completion it can produce is the [TypeError] of the language. *)

Inductive error : Type := TypeError.

Inductive result (A : Type) : Type :=
| Ok (a : A)
| Throw (e : error).

Arguments Ok {A} a.
Arguments Throw {A} e.

Definition bind {A B} (c : result A) (k : A -> result B) : result B :=
  match c with
  | Ok a => k a
  | Throw e => Throw e
  end.

Notation "x <- c ;; k" := (bind c (fun x => k))
  (at level 61, c at next level, right associativity).

(** [Array.prototype.map] with a callback that may throw. *)
Fixpoint mapM {A B} (f : A -> result B) (l : list A) : result (list B) :=
  match l with
  | [] => Ok []
  | x :: r => y <- f x ;; ys <- mapM f r ;; Ok (y :: ys)
  end.

(** [Array.prototype.filter] with a callback that may throw. *)
Fixpoint filterM {A} (f : A -> result bool) (l : list A) : result (list A) :=
  match l with
  | [] => Ok []
  | x :: r => b <- f x ;; ys <- filterM f r ;; Ok (if b then x :: ys else ys)
  end.

(** ** Values

    A source document is what a JSON or YAML loader hands over: [undefined],
    [null], booleans, numbers, strings, arrays and plain objects.  Numbers
    are the integer-valued ones (in the safe range, where the decimal
    rendering below is the language's); strings are sequences of code units.
    An object is the list of its own enumerable properties in the order
    [Object.keys] reports them.

    The output can hold one more kind of value: a built-in that a read of a
    literal object picked up from [Object.prototype].  The parameter [N] is
    the type of those; it is empty for source documents. *)

#[local] Unset Elimination Schemes.

Inductive value (N : Type) : Type :=
| VUndefined
| VNull
| VBool (b : bool)
| VNum (n : Z)
| VStr (s : string)
| VArr (items : list (value N))
| VObj (props : list (string * value N))
| VNative (f : N).

#[local] Set Elimination Schemes.

Arguments VUndefined {N}.
Arguments VNull {N}.
Arguments VBool {N} b.
Arguments VNum {N} n.
Arguments VStr {N} s.
Arguments VArr {N} items.
Arguments VObj {N} props.
Arguments VNative {N} f.

(** The properties of [Object.prototype], which every object literal
    inherits.  All but the last are functions; [__proto__] is an accessor
    whose getter returns the prototype object itself. *)
Inductive native : Type :=
| NConstructor
| NDefineGetter
| NDefineSetter
| NHasOwnProperty
| NLookupGetter
| NLookupSetter
| NIsPrototypeOf
| NPropertyIsEnumerable
| NToString
| NValueOf
| NToLocaleString
| NObjectPrototype.

Definition data : Type := value Empty_set.
Definition raml : Type := value native.
Definition object (N : Type) : Type := list (string * value N).

(** A source value placed in the output as it is. *)
Fixpoint lift (v : data) : raml :=
  match v with
  | VUndefined => VUndefined
  | VNull => VNull
  | VBool b => VBool b
  | VNum n => VNum n
  | VStr s => VStr s
  | VArr l => VArr (map lift l)
  | VObj l => VObj (map (fun p => (fst p, lift (snd p))) l)
  | VNative f => match f with end
  end.

(** [ToBoolean]. *)
Definition truthy {N} (v : value N) : bool :=
  match v with
  | VUndefined | VNull => false
  | VBool b => b
  | VNum n => negb (n =? 0)%Z
  | VStr s => negb (s =? "")
  | VArr _ | VObj _ | VNative _ => true
  end.

Definition nullish {N} (v : value N) : bool :=
  match v with
  | VUndefined | VNull => true
  | _ => false
  end.

(** [v === s] for a string literal [s]. *)
Definition is_str {N} (v : value N) (s : string) : bool :=
  match v with
  | VStr t => t =? s
  | _ => false
  end.

(** ** Own properties *)

Fixpoint assoc {A} (k : string) (l : list (string * A)) : option A :=
  match l with
  | [] => None
  | (k', a) :: r => if k' =? k then Some a else assoc k r
  end.

Definition has_own {A} (k : string) (l : list (string * A)) : bool :=
  match assoc k l with
  | Some _ => true
  | None => false
  end.

Fixpoint replace {A} (k : string) (a : A) (l : list (string * A))
  : list (string * A) :=
  match l with
  | [] => []
  | (k', a') :: r =>
      if k' =? k then (k', a) :: r else (k', a') :: replace k a r
  end.

(** The decimal rendering of an array index. *)
Definition index_key (i : nat) : string :=
  NilEmpty.string_of_uint (Nat.to_uint i).

Definition indexed {A} (l : list A) : list (string * A) :=
  combine (map index_key (seq 0 (length l))) l.

Definition code_units {N} (s : string) : list (value N) :=
  map (fun c => VStr (String c "")) (list_ascii_of_string s).

(** The own enumerable string-keyed properties of a value, in the order of
    [Object.keys]: the properties of an object, the elements of an array,
    the code units of a string, nothing for the other primitives. *)
Definition entries {N} (v : value N) : object N :=
  match v with
  | VObj l => l
  | VArr l => indexed l
  | VStr s => indexed (code_units s)
  | _ => []
  end.

(** [Object.keys(v)], as ECMAScript 2015 and later define it: [undefined]
    and [null] throw, a primitive is converted to an object first. *)
Definition keys {N} (v : value N) : result (list string) :=
  if nullish v then Throw TypeError else Ok (map fst (entries v)).

(** The own property [k] of an output value, [None] when there is none: it
    tells a missing key from a key that holds [undefined]. *)
Definition field {N} (v : value N) (k : string) : option (value N) :=
  match v with
  | VObj l => assoc k l
  | _ => None
  end.

(** [v.k] and [v[k]] on a source value, for the names the converter reads:
    its fixed property names (none of which a built-in prototype defines,
    apart from [length], handled here, and [map], handled by [array_map])
    and the keys [Object.keys] returned for [v].  Reading from [undefined]
    or [null] throws; a missing property reads as [undefined]. *)
Definition get (v : data) (k : string) : result data :=
  match v with
  | VUndefined | VNull => Throw TypeError
  | VBool _ | VNum _ => Ok VUndefined
  | VStr s =>
      if k =? "length" then Ok (VNum (Z.of_nat (String.length s)))
      else Ok (match assoc k (entries v) with Some x => x | None => VUndefined end)
  | VArr l =>
      if k =? "length" then Ok (VNum (Z.of_nat (List.length l)))
      else Ok (match assoc k (entries v) with Some x => x | None => VUndefined end)
  | VObj l => Ok (match assoc k l with Some x => x | None => VUndefined end)
  | VNative f => match f with end
  end.

(** [v.map(callback)]: [Array.prototype.map] on an array; on anything else
    [v.map] is not a function (a document holds no functions) and the call
    throws. *)
Definition array_map {A} (v : data) (callback : data -> result A)
  : result (list A) :=
  match v with
  | VArr l => mapM callback l
  | _ => Throw TypeError
  end.

(** ** String conversion

    [ToString(ToPrimitive(v))], as string concatenation and property-key
    conversion apply it.  A plain object renders through the inherited
    [toString]; an own [toString] property shadows it, and since a document
    holds no functions the conversion then finds nothing callable that
    returns a primitive and throws.  An array renders through [join]. *)
Fixpoint to_string (v : data) : result string :=
  match v with
  | VUndefined => Ok "undefined"
  | VNull => Ok "null"
  | VBool true => Ok "true"
  | VBool false => Ok "false"
  | VNum n => Ok (NilZero.string_of_int (Z.to_int n))
  | VStr s => Ok s
  | VArr l =>
      parts <- (fix each (l : list data) : result (list string) :=
                  match l with
                  | [] => Ok []
                  | x :: r =>
                      s <- match x with
                           | VUndefined | VNull => Ok ""
                           | _ => to_string x
                           end ;;
                      ss <- each r ;;
                      Ok (s :: ss)
                  end) l ;;
      Ok (String.concat "," parts)
  | VObj l => if has_own "toString" l then Throw TypeError
              else Ok "[object Object]"
  | VNative f => match f with end
  end.

(** [s + v] for a string [s]. *)
Definition concat_value (s : string) (v : data) : result string :=
  t <- to_string v ;; Ok (s ++ t).

(** ** Property writes

    [o[k] = v] on an object that inherits from [Object.prototype].  An
    existing own property is overwritten in place; otherwise the property is
    appended, except for the key [__proto__], where the inherited setter runs
    instead and no own property is created. *)
Definition set_prop {N} (o : object N) (k : string) (v : value N) : object N :=
  if has_own k o then replace k v o
  else if k =? "__proto__" then o
  else (o ++ [(k, v)])%list.

(** ** Reads of the literal lookup tables

    The three tables of the converter are object literals read with a
    computed key, so a key they do not define falls through to
    [Object.prototype]. *)
Definition inherited (k : string) : option native :=
  if k =? "constructor" then Some NConstructor
  else if k =? "__defineGetter__" then Some NDefineGetter
  else if k =? "__defineSetter__" then Some NDefineSetter
  else if k =? "hasOwnProperty" then Some NHasOwnProperty
  else if k =? "__lookupGetter__" then Some NLookupGetter
  else if k =? "__lookupSetter__" then Some NLookupSetter
  else if k =? "isPrototypeOf" then Some NIsPrototypeOf
  else if k =? "propertyIsEnumerable" then Some NPropertyIsEnumerable
  else if k =? "toString" then Some NToString
  else if k =? "valueOf" then Some NValueOf
  else if k =? "toLocaleString" then Some NToLocaleString
  else if k =? "__proto__" then Some NObjectPrototype
  else None.

Inductive looked_up : Type :=
| Own (s : string)
| Inherited (f : native)
| Missing.

Definition table_get (table : list (string * string)) (k : string) : looked_up :=
  match assoc k table with
  | Some s => Own s
  | None =>
      match inherited k with
      | Some f => Inherited f
      | None => Missing
      end
  end.

Definition looked_up_value (r : looked_up) : raml :=
  match r with
  | Own s => VStr s
  | Inherited f => VNative f
  | Missing => VUndefined
  end.

Definition looked_up_truthy (r : looked_up) : bool :=
  truthy (looked_up_value r).

Definition native_name (f : native) : string :=
  match f with
  | NConstructor => "Object"
  | NDefineGetter => "__defineGetter__"
  | NDefineSetter => "__defineSetter__"
  | NHasOwnProperty => "hasOwnProperty"
  | NLookupGetter => "__lookupGetter__"
  | NLookupSetter => "__lookupSetter__"
  | NIsPrototypeOf => "isPrototypeOf"
  | NPropertyIsEnumerable => "propertyIsEnumerable"
  | NToString => "toString"
  | NValueOf => "valueOf"
  | NToLocaleString => "toLocaleString"
  | NObjectPrototype => "__proto__"
  end.

(** The property key a looked-up value converts to: a built-in function
    renders as its source text (as V8 prints it), the prototype object as
    any plain object. *)
Definition looked_up_key (r : looked_up) : string :=
  match r with
  | Own s => s
  | Inherited NObjectPrototype => "[object Object]"
  | Inherited f => "function " ++ native_name f ++ "() { [native code] }"
  | Missing => "undefined"
  end.

End JS.

Import JS.

(** * The converter *)

Definition dquote : string := String "034"%char EmptyString.
Definition newline : string := String "010"%char EmptyString.

(** [l.length] used as a condition. *)
Definition has_length {A} (l : list A) : bool :=
  negb (Nat.eqb (List.length l) 0).

(** [Array.prototype.join] on an array of strings. *)
Definition join (sep : string) (l : list string) : string :=
  String.concat sep l.

(** ** The lookup tables *)

Definition DOCUMENTATION_NAME_MAP : list (string * string) :=
  [ ("description", "Description");
    ("termsOfServiceUrl", "Terms of Service URL");
    ("contact", "Contact");
    ("license", "License");
    ("licenseUrl", "License URL") ].

Definition GRANT_TYPE_MAP : list (string * string) :=
  [ ("implicit", "token");
    ("authorization_code", "code") ].

Definition API_KEY_PASS_AS_MAP : list (string * string) :=
  [ ("header", "headers");
    ("query", "queryParameters") ].

(** ** [convertInfo] *)

Definition documentation_entry (info : data) (key : string) : result raml :=
  content <- get info key ;;
  Ok (VObj [ ("title", looked_up_value (table_get DOCUMENTATION_NAME_MAP key));
             ("content", lift content) ]).

Definition convertInfo (info : data) (ramlObject : object native)
  : result (object native) :=
  if negb (truthy info) then Ok ramlObject
  else
    kept <- filterM (fun key => v <- get info key ;; Ok (truthy v))
                    (map fst DOCUMENTATION_NAME_MAP) ;;
    documentation <- mapM (documentation_entry info) kept ;;
    title <- get info "title" ;;
    let ramlObject := set_prop ramlObject "title" (lift title) in
    let ramlObject :=
      if has_length documentation
      then set_prop ramlObject "documentation" (VArr documentation)
      else ramlObject in
    Ok ramlObject.

(** ** [convertApis] *)

Definition resource_entry (api : data) : result raml :=
  path <- get api "path" ;;
  description <- get api "description" ;;
  Ok (VObj [ ("relativeUri", lift path); ("description", lift description) ]).

Definition convertApis (apis : data) (ramlObject : object native)
  : result (object native) :=
  if negb (truthy apis) then Ok ramlObject
  else
    resources <- array_map apis resource_entry ;;
    Ok (set_prop ramlObject "resources" (VArr resources)).

(** ** [convertBasicAuth] *)

Definition convertBasicAuth (authorization : data) : result raml :=
  Ok (VObj [ ("type", VStr "Basic Authentication") ]).

(** ** [convertApiKey] *)

Definition api_key_parameter : raml :=
  VObj [ ("type", VStr "string");
         ("description",
          VStr "Used to send a valid API key for authentication.") ].

Definition convertApiKey (authorization : data) : result raml :=
  passAs <- get authorization "passAs" ;;
  passAsKey <- to_string passAs ;;
  let describedBy := table_get API_KEY_PASS_AS_MAP passAsKey in
  if looked_up_truthy describedBy then
    keyname <- get authorization "keyname" ;;
    name <- to_string keyname ;;
    let description := set_prop [] name api_key_parameter in
    Ok (VObj [ ("type", VStr "x-api-key");
               ("describedBy",
                VObj (set_prop [] (looked_up_key describedBy)
                               (VObj description))) ])
  else
    Ok (VObj [ ("type", VStr "x-api-key"); ("describedBy", VObj []) ]).

(** ** [convertOAuth2]

    The function mutates two locals, [authSettings] (an alias of
    [ramlAuth.settings]) and [description]; they are threaded here as a pair
    through one definition per block of the source. *)

Definition oauth2_state : Type := (object native * list string)%type.

(** The callback of [authorization.scopes.map], with the [scopeDescriptions]
    array it pushes to. *)
Fixpoint map_scopes (scopes : list data) (scopeDescriptions : list string)
  : result (list data * list string) :=
  match scopes with
  | [] => Ok ([], scopeDescriptions)
  | scope :: rest =>
      name <- get scope "scope" ;;
      description <- get scope "description" ;;
      scopeDescriptions <-
        (if truthy description then
           s <- concat_value "* " name ;;
           s <- concat_value (s ++ ": ") description ;;
           Ok (scopeDescriptions ++ [s])%list
         else Ok scopeDescriptions) ;;
      r <- map_scopes rest scopeDescriptions ;;
      Ok (name :: fst r, snd r)
  end.

(** The block guarded by [authorization.scopes && authorization.scopes.length];
    as in [array_map], only an array has a [map] to call. *)
Definition oauth2_scopes (authorization : data) (st : oauth2_state)
  : result oauth2_state :=
  let '(authSettings, description) := st in
  scopes <- get authorization "scopes" ;;
  len <- (if truthy scopes then get scopes "length" else Ok scopes) ;;
  if truthy len then
    r <- match scopes with
         | VArr l => map_scopes l []
         | _ => Throw TypeError
         end ;;
    let '(names, scopeDescriptions) := r in
    let authSettings := set_prop authSettings "scopes" (VArr (map lift names)) in
    let description :=
      if has_length scopeDescriptions
      then (description ++ ["Available scopes: "; join newline scopeDescriptions])%list
      else description in
    Ok (authSettings, description)
  else Ok (authSettings, description).

(** [o.k.push(x)]. *)
Definition push {N} (o : object N) (k : string) (x : value N)
  : result (object N) :=
  match assoc k o with
  | Some (VArr l) => Ok (replace k (VArr (l ++ [x])) o)
  | _ => Throw TypeError
  end.

Fixpoint push_grants (grantTypeKeys : list string) (authSettings : object native)
  : result (object native) :=
  match grantTypeKeys with
  | [] => Ok authSettings
  | grantType :: rest =>
      authSettings <- push authSettings "authorizationGrants"
                        (looked_up_value (table_get GRANT_TYPE_MAP grantType)) ;;
      push_grants rest authSettings
  end.

Definition oauth2_grants (authorization : data) (st : oauth2_state)
  : result oauth2_state :=
  let '(authSettings, description) := st in
  grantTypes <- get authorization "grantTypes" ;;
  grantTypeKeys <- keys grantTypes ;;
  authSettings <- push_grants grantTypeKeys authSettings ;;
  Ok (authSettings, description).

(** [if (name && name !== standard) description.push(before + name + after)]. *)
Definition describe_override (name : data) (standard before after : string)
  (description : list string) : result (list string) :=
  if truthy name && negb (is_str name standard) then
    s <- concat_value before name ;;
    Ok (description ++ [(s ++ after)%string])%list
  else Ok description.

Definition oauth2_implicit (implicit : data) (st : oauth2_state)
  : result oauth2_state :=
  let '(authSettings, description) := st in
  if truthy implicit then
    loginEndpoint <- get implicit "loginEndpoint" ;;
    url <- (if truthy loginEndpoint then get loginEndpoint "url"
            else Ok loginEndpoint) ;;
    let authSettings :=
      if truthy url then set_prop authSettings "authorizationUri" (lift url)
      else authSettings in
    tokenName <- get implicit "tokenName" ;;
    description <-
      describe_override tokenName "access_token"
        ("The token grant uses " ++ dquote)
        (dquote ++ " as the token name.") description ;;
    Ok (authSettings, description)
  else Ok (authSettings, description).

Definition oauth2_authCode (authCode : data) (st : oauth2_state)
  : result oauth2_state :=
  let '(authSettings, description) := st in
  if truthy authCode then
    tokenEndpoint <- get authCode "tokenEndpoint" ;;
    tokenRequestEndpoint <- get authCode "tokenRequestEndpoint" ;;
    clientIdName <- get tokenRequestEndpoint "clientIdName" ;;
    clientSecretName <- get tokenRequestEndpoint "clientSecretName" ;;
    tokenName <- get tokenEndpoint "tokenName" ;;
    accessTokenUri <- get tokenEndpoint "url" ;;
    let authSettings :=
      set_prop authSettings "accessTokenUri" (lift accessTokenUri) in
    authorizationUri <- get tokenRequestEndpoint "url" ;;
    let authSettings :=
      set_prop authSettings "authorizationUri" (lift authorizationUri) in
    description <-
      describe_override clientIdName "client_id"
        ("The code grant uses " ++ dquote)
        (dquote ++ " as the parameter for passing the client id.")
        description ;;
    description <-
      describe_override clientSecretName "client_secret"
        ("The code grant uses " ++ dquote)
        (dquote ++ " as the parameter for passing the client secret.")
        description ;;
    description <-
      describe_override tokenName "access_code"
        ("The code grant uses " ++ dquote)
        (dquote ++ " as the parameter for passing the authorization token.")
        description ;;
    Ok (authSettings, description)
  else Ok (authSettings, description).

Definition convertOAuth2 (authorization : data) : result raml :=
  let authSettings : object native := [ ("authorizationGrants", VArr []) ] in
  grantTypes <- get authorization "grantTypes" ;;
  implicit <- get grantTypes "implicit" ;;
  authCode <- get grantTypes "authorization_code" ;;
  let description : list string := [] in
  st <- oauth2_scopes authorization (authSettings, description) ;;
  st <- oauth2_grants authorization st ;;
  st <- oauth2_implicit implicit st ;;
  st <- oauth2_authCode authCode st ;;
  let '(authSettings, description) := st in
  let ramlAuth := [ ("type", VStr "OAuth 2.0");
                    ("settings", VObj authSettings) ] in
  let ramlAuth :=
    if has_length description
    then set_prop ramlAuth "description"
           (VStr (join (newline ++ newline) description))
    else ramlAuth in
  Ok (VObj ramlAuth).

(** ** [convertAuthorization]

    Falling off the end of the function returns [undefined]. *)
Definition convertAuthorization (authorization : data) : result raml :=
  type <- get authorization "type" ;;
  if is_str type "oauth2" then convertOAuth2 authorization
  else if is_str type "apiKey" then convertApiKey authorization
  else if is_str type "basicAuth" then convertBasicAuth authorization
  else Ok VUndefined.

(** ** [convertAuthorizations] *)

Definition scheme_entry (authorizations : data) (key : string) : result raml :=
  authorization <- get authorizations key ;;
  scheme <- convertAuthorization authorization ;;
  Ok (VObj (set_prop [] key scheme)).

Definition convertAuthorizations (authorizations : data)
  (ramlObject : object native) : result (object native) :=
  if negb (truthy authorizations) then Ok ramlObject
  else
    authorizationKeys <- keys authorizations ;;
    securitySchemes <- mapM (scheme_entry authorizations) authorizationKeys ;;
    Ok (set_prop ramlObject "securitySchemes" (VArr securitySchemes)).

(** ** [converter] *)

Definition converter (resource : data) : result raml :=
  let ramlObject : object native := [] in
  info <- get resource "info" ;;
  ramlObject <- convertInfo info ramlObject ;;
  apis <- get resource "apis" ;;
  ramlObject <- convertApis apis ramlObject ;;
  authorizations <- get resource "authorizations" ;;
  ramlObject <- convertAuthorizations authorizations ramlObject ;;
  apiVersion <- get resource "apiVersion" ;;
  let ramlObject :=
    if truthy apiVersion
    then set_prop ramlObject "version" (lift apiVersion)
    else ramlObject in
  Ok (VObj ramlObject).

(** * The vocabulary of the statements *)

(** [v.k], with a read that throws taken as [undefined]: the way the
    statements below name the parts of a source document. *)
Definition read (v : data) (k : string) : data :=
  match get v k with
  | Ok x => x
  | Throw _ => VUndefined
  end.

(** The documentation entries of an [info] object, written from the table:
    the recognized keys in their declaration order, those that read truthy,
    each as a [{ title, content }] pair. *)
Definition documentation_of (info : data) : list raml :=
  map (fun kv => VObj [ ("title", VStr (snd kv));
                        ("content", lift (read info (fst kv))) ])
      (filter (fun kv => truthy (read info (fst kv))) DOCUMENTATION_NAME_MAP).

(** The resource entry of one [apis] element. *)
Definition resource_of (api : data) : raml :=
  VObj [ ("relativeUri", lift (read api "path"));
         ("description", lift (read api "description")) ].

(** What one grant-type key contributes to [authorizationGrants]. *)
Definition grant_of (grantType : string) : raml :=
  looked_up_value (table_get GRANT_TYPE_MAP grantType).

(** A scope that carries a description. *)
Definition described (scope : data) : bool :=
  truthy (read scope "description").

(** The line a described scope contributes. *)
Definition scope_line (scope : data) : result string :=
  n <- to_string (read scope "scope") ;;
  d <- to_string (read scope "description") ;;
  Ok ("* " ++ n ++ ": " ++ d).

(** The line a parameter name contributes when it is set and differs from
    the standard name. *)
Definition override_line (name : data) (standard before after : string)
  : result (list string) :=
  if truthy name && negb (is_str name standard) then
    t <- to_string name ;; Ok [before ++ t ++ after]
  else Ok [].

Definition implicit_lines (implicit : data) : result (list string) :=
  if truthy implicit then
    override_line (read implicit "tokenName") "access_token"
      ("The token grant uses " ++ dquote) (dquote ++ " as the token name.")
  else Ok [].

Definition authCode_lines (authCode : data) : result (list string) :=
  if truthy authCode then
    let tokenEndpoint := read authCode "tokenEndpoint" in
    let tokenRequestEndpoint := read authCode "tokenRequestEndpoint" in
    a <- override_line (read tokenRequestEndpoint "clientIdName") "client_id"
           ("The code grant uses " ++ dquote)
           (dquote ++ " as the parameter for passing the client id.") ;;
    b <- override_line (read tokenRequestEndpoint "clientSecretName")
           "client_secret"
           ("The code grant uses " ++ dquote)
           (dquote ++ " as the parameter for passing the client secret.") ;;
    c <- override_line (read tokenEndpoint "tokenName") "access_code"
           ("The code grant uses " ++ dquote)
           (dquote ++ " as the parameter for passing the authorization token.") ;;
    Ok (a ++ b ++ c)%list
  else Ok [].

(** The URL the implicit branch would store: [loginEndpoint && loginEndpoint.url]. *)
Definition login_url (implicit : data) : data :=
  let loginEndpoint := read implicit "loginEndpoint" in
  if truthy loginEndpoint then read loginEndpoint "url" else loginEndpoint.

(** [authorization.scopes && authorization.scopes.length]. *)
Definition has_scopes (authorization : data) : bool :=
  let scopes := read authorization "scopes" in
  truthy scopes && truthy (read scopes "length").

(** The two description entries of the scope block. *)
Definition scope_block (lines : list string) : list string :=
  if has_length lines then ["Available scopes: "; join newline lines] else [].

(** The lines of the described scopes of an authorization; it throws where
    the scope loop does. *)
Definition scope_lines (authorization : data) : result (list string) :=
  if has_scopes authorization then
    match read authorization "scopes" with
    | VArr l =>
        if forallb (fun scope => negb (nullish scope)) l
        then mapM scope_line (filter described l)
        else Throw TypeError
    | _ => Throw TypeError
    end
  else Ok [].

Definition scope_names (authorization : data) : list raml :=
  map (fun scope => lift (read scope "scope"))
      (map snd (entries (read authorization "scopes"))).

(** The [settings] object [convertOAuth2] builds, write by write. *)
Definition settings_of (authorization : data) : object native :=
  let grantTypes := read authorization "grantTypes" in
  let implicit := read grantTypes "implicit" in
  let authCode := read grantTypes "authorization_code" in
  let s0 : object native := [ ("authorizationGrants", VArr []) ] in
  let s1 := if has_scopes authorization
            then set_prop s0 "scopes" (VArr (scope_names authorization))
            else s0 in
  let s2 := replace "authorizationGrants"
              (VArr (map grant_of (map fst (entries grantTypes)))) s1 in
  let s3 := if truthy implicit && truthy (login_url implicit)
            then set_prop s2 "authorizationUri" (lift (login_url implicit))
            else s2 in
  if truthy authCode then
    set_prop
      (set_prop s3 "accessTokenUri"
         (lift (read (read authCode "tokenEndpoint") "url")))
      "authorizationUri"
      (lift (read (read authCode "tokenRequestEndpoint") "url"))
  else s3.

(** The optional [description] property of the scheme. *)
Definition description_part (description : list string) : object native :=
  if has_length description
  then [ ("description", VStr (join (newline ++ newline) description)) ]
  else [].

Definition returns {A} (c : result A) : bool :=
  match c with
  | Ok _ => true
  | Throw _ => false
  end.

(** A value string conversion accepts: a primitive, an object without an
    own [toString], an array of such values. *)
Definition stringable (v : data) : bool := returns (to_string v).

Definition well_formed_scope (scope : data) : bool :=
  negb (nullish scope)
  && (negb (described scope)
      || (stringable (read scope "scope")
          && stringable (read scope "description"))).

Definition well_formed_scopes (authorization : data) : bool :=
  negb (has_scopes authorization)
  || match read authorization "scopes" with
     | VArr l => forallb well_formed_scope l
     | _ => false
     end.

Definition well_formed_implicit (implicit : data) : bool :=
  negb (truthy implicit) || stringable (read implicit "tokenName").

Definition well_formed_authCode (authCode : data) : bool :=
  negb (truthy authCode)
  || (let tokenEndpoint := read authCode "tokenEndpoint" in
      let tokenRequestEndpoint := read authCode "tokenRequestEndpoint" in
      negb (nullish tokenEndpoint)
      && negb (nullish tokenRequestEndpoint)
      && stringable (read tokenRequestEndpoint "clientIdName")
      && stringable (read tokenRequestEndpoint "clientSecretName")
      && stringable (read tokenEndpoint "tokenName")).

Definition well_formed_oauth2 (authorization : data) : bool :=
  let grantTypes := read authorization "grantTypes" in
  negb (nullish grantTypes)
  && well_formed_scopes authorization
  && well_formed_implicit (read grantTypes "implicit")
  && well_formed_authCode (read grantTypes "authorization_code").

Definition well_formed_apiKey (authorization : data) : bool :=
  match to_string (read authorization "passAs") with
  | Ok passAs =>
      negb (looked_up_truthy (table_get API_KEY_PASS_AS_MAP passAs))
      || stringable (read authorization "keyname")
  | Throw _ => false
  end.

Definition well_formed_authorization (authorization : data) : bool :=
  negb (nullish authorization)
  && (let type := read authorization "type" in
      if is_str type "oauth2" then well_formed_oauth2 authorization
      else if is_str type "apiKey" then well_formed_apiKey authorization
      else true).

Definition well_formed_authorizations (authorizations : data) : bool :=
  negb (truthy authorizations)
  || forallb (fun key => well_formed_authorization (read authorizations key))
             (map fst (entries authorizations)).

Definition well_formed_apis (apis : data) : bool :=
  negb (truthy apis)
  || match apis with
     | VArr l => forallb (fun api => negb (nullish api)) l
     | _ => false
     end.

(** The documents [converter] accepts. *)
Definition well_formed (resource : data) : bool :=
  negb (nullish resource)
  && well_formed_apis (read resource "apis")
  && well_formed_authorizations (read resource "authorizations").

(** A parameter name that is unset or the standard one. *)
Definition standard_or_unset (name : data) (standard : string) : bool :=
  negb (truthy name) || is_str name standard.

(** * Sample documents *)

(** [{}]. *)
Definition empty_document : data := VObj [].

(** [{ authorizations: { oauth: { type: 'oauth2' } } }]: an OAuth 2.0 entry
    without [grantTypes]. *)
Definition oauth2_without_grantTypes : data :=
  VObj [ ("authorizations",
          VObj [ ("oauth", VObj [ ("type", VStr "oauth2") ]) ]) ].

(** [{ apis: [{ path: '/pets' }] }]: an api without a description. *)
Definition api_without_description : data :=
  VObj [ ("apis", VArr [ VObj [ ("path", VStr "/pets") ] ]) ].

(** [{ info: {} }]: an info object without a title. *)
Definition info_without_title : data :=
  VObj [ ("info", VObj []) ].

(** A document with every section. *)
Definition petstore : data :=
  VObj [ ("apiVersion", VStr "1.0.0");
         ("info", VObj [ ("licenseUrl", VStr "http://www.apache.org/licenses/LICENSE-2.0.html");
                         ("title", VStr "Swagger Sample App");
                         ("description", VStr "This is a sample server Petstore server.");
                         ("contact", VStr "apiteam@wordnik.com") ]);
         ("apis", VArr [ VObj [ ("path", VStr "/pet");
                                ("description", VStr "Operations about pets") ];
                         VObj [ ("path", VStr "/user") ] ]);
         ("authorizations",
          VObj [ ("oauth2",
                  VObj [ ("type", VStr "oauth2");
                         ("scopes",
                          VArr [ VObj [ ("scope", VStr "read") ];
                                 VObj [ ("scope", VStr "write");
                                        ("description", VStr "Write access") ] ]);
                         ("grantTypes",
                          VObj [ ("implicit",
                                  VObj [ ("loginEndpoint",
                                          VObj [ ("url", VStr "http://petstore.swagger.wordnik.com/oauth/dialog") ]);
                                         ("tokenName", VStr "access_token") ]);
                                 ("authorization_code",
                                  VObj [ ("tokenRequestEndpoint",
                                          VObj [ ("url", VStr "http://petstore.swagger.wordnik.com/oauth/requestToken");
                                                 ("clientIdName", VStr "client_id");
                                                 ("clientSecretName", VStr "client_secret") ]);
                                         ("tokenEndpoint",
                                          VObj [ ("url", VStr "http://petstore.swagger.wordnik.com/oauth/token");
                                                 ("tokenName", VStr "access_code") ]) ]) ]) ]);
                 ("key", VObj [ ("type", VStr "apiKey");
                                ("passAs", VStr "header");
                                ("keyname", VStr "X-Api-Key") ]);
                 ("basic", VObj [ ("type", VStr "basicAuth") ]);
                 ("digest", VObj [ ("type", VStr "digest") ]) ]) ].

(** The value a conversion returned, for the samples below. *)
Definition converted_or_undefined (c : result raml) : raml :=
  match c with
  | Ok out => out
  | Throw _ => VUndefined
  end.

(** The converted [petstore]. *)
Definition petstore_raml : raml :=
  Eval vm_compute in converted_or_undefined (converter petstore).

(** The OAuth 2.0 authorization of [petstore]: two scopes, an implicit grant
    and an authorization-code grant. *)
Definition petstore_oauth2 : data :=
  read (read petstore "authorizations") "oauth2".

(** An authorization-code grant that renames the client id, everything else
    standard. *)
Definition app_id_authorization : data :=
  VObj [ ("type", VStr "oauth2");
         ("grantTypes",
          VObj [ ("authorization_code",
                  VObj [ ("tokenRequestEndpoint",
                          VObj [ ("url", VStr "http://example.com/oauth/requestToken");
                                 ("clientIdName", VStr "app_id");
                                 ("clientSecretName", VStr "client_secret") ]);
                         ("tokenEndpoint",
                          VObj [ ("url", VStr "http://example.com/oauth/token");
                                 ("tokenName", VStr "access_code") ]) ]) ]) ].

(** The same authorization with one described scope. *)
Definition app_id_with_described_scope : data :=
  VObj [ ("type", VStr "oauth2");
         ("scopes", VArr [ VObj [ ("scope", VStr "read");
                                  ("description", VStr "Read access") ] ]);
         ("grantTypes", read app_id_authorization "grantTypes") ].

(** [{ type: 'oauth2', grantTypes: { password: {}, constructor: {} } }]:
    two grant types the table does not know, the second named like a
    property of [Object.prototype]. *)
Definition constructor_grant : data :=
  VObj [ ("type", VStr "oauth2");
         ("grantTypes", VObj [ ("password", VObj []);
                               ("constructor", VObj []) ]) ].

Definition petstore_oauth2_raml : raml :=
  Eval vm_compute in converted_or_undefined (convertOAuth2 petstore_oauth2).

Definition app_id_raml : raml :=
  Eval vm_compute in converted_or_undefined (convertOAuth2 app_id_authorization).

Definition app_id_with_described_scope_raml : raml :=
  Eval vm_compute in
    converted_or_undefined (convertOAuth2 app_id_with_described_scope).

(** [{ type: 'apiKey', passAs: 'header', keyname: 'X-Api-Key' }]. *)
Definition header_key : data :=
  VObj [ ("type", VStr "apiKey");
         ("passAs", VStr "header");
         ("keyname", VStr "X-Api-Key") ].

(** [{ type: 'apiKey', passAs: 'constructor', keyname: 'X-Api-Key' }]: a
    [passAs] that is neither ['header'] nor ['query']. *)
Definition constructor_key : data :=
  VObj [ ("type", VStr "apiKey");
         ("passAs", VStr "constructor");
         ("keyname", VStr "X-Api-Key") ].

(** [{ authorizations: { "__proto__": { type: 'digest' },
                         basic: { type: 'basicAuth' } } }], as a JSON parser
    builds it: [__proto__] is an own property of [authorizations]. *)
Definition proto_named_authorization : data :=
  VObj [ ("authorizations",
          VObj [ ("__proto__", VObj [ ("type", VStr "digest") ]);
                 ("basic", VObj [ ("type", VStr "basicAuth") ]) ]) ].

(** [{ type: 'oauth2', grantTypes: { authorization_code: { tokenEndpoint: {},
    tokenRequestEndpoint: {} } } }]: a code grant whose endpoints have no
    url. *)
Definition code_grant_without_urls : data :=
  VObj [ ("type", VStr "oauth2");
         ("grantTypes",
          VObj [ ("authorization_code",
                  VObj [ ("tokenEndpoint", VObj []);
                         ("tokenRequestEndpoint", VObj []) ]) ]) ].

(** [{ type: 'apiKey' }]: an API key without [passAs]. *)
Definition key_without_passAs : data :=
  VObj [ ("type", VStr "apiKey") ].

(** * Vocabulary and samples of the further properties *)

(** The names of the properties of [Object.prototype]: the keys for which
    [inherited] answers. *)
Definition prototype_names : list string :=
  [ "constructor"; "__defineGetter__"; "__defineSetter__"; "hasOwnProperty";
    "__lookupGetter__"; "__lookupSetter__"; "isPrototypeOf";
    "propertyIsEnumerable"; "toString"; "valueOf"; "toLocaleString";
    "__proto__" ].

(** A parameter name as the source schema has it: a string, or absent. *)
Definition string_or_absent (v : data) : bool :=
  match v with
  | VStr _ | VUndefined => true
  | _ => false
  end.

(** The description entry of a parameter name: none when the name is absent,
    empty or the standard one. *)
Definition named_line (name : data) (standard before after : string)
  : list string :=
  match name with
  | VStr s => if (s =? "") || (s =? standard) then []
              else [before ++ s ++ after]
  | _ => []
  end.

(** [petstore] with its keys in another order and with properties the
    converter does not read. *)
Definition petstore_with_more_keys : data :=
  VObj [ ("swaggerVersion", VStr "1.2");
         ("authorizations", read petstore "authorizations");
         ("basePath", VStr "http://petstore.swagger.wordnik.com/api");
         ("apis", read petstore "apis");
         ("info", read petstore "info");
         ("apiVersion", read petstore "apiVersion") ].

(** [{ type: 'apiKey', passAs: 'query', keyname: 'api_key' }]. *)
Definition query_key : data :=
  VObj [ ("type", VStr "apiKey");
         ("passAs", VStr "query");
         ("keyname", VStr "api_key") ].

(** [{ type: 'apiKey', passAs: 'cookie', keyname: {toString: 1} }]: an
    unknown [passAs], and a [keyname] that cannot be converted to a key. *)
Definition cookie_key : data :=
  VObj [ ("type", VStr "apiKey");
         ("passAs", VStr "cookie");
         ("keyname", VObj [ ("toString", VNum 1) ]) ].

(** [{ type: 'basicAuth', passAs: 'header', grantTypes: null }]: a basic
    authorization that carries properties of the other schemes. *)
Definition basic_with_more_keys : data :=
  VObj [ ("type", VStr "basicAuth");
         ("passAs", VStr "header");
         ("grantTypes", VNull) ].

(** An OAuth 2.0 authorization that renames all four parameters. *)
Definition renaming_authorization : data :=
  VObj [ ("type", VStr "oauth2");
         ("grantTypes",
          VObj [ ("authorization_code",
                  VObj [ ("tokenRequestEndpoint",
                          VObj [ ("url", VStr "http://example.com/request");
                                 ("clientIdName", VStr "app_id");
                                 ("clientSecretName", VStr "app_secret") ]);
                         ("tokenEndpoint",
                          VObj [ ("url", VStr "http://example.com/token");
                                 ("tokenName", VStr "auth_code") ]) ]);
                 ("implicit",
                  VObj [ ("tokenName", VStr "token") ]) ]) ].

Definition renaming_raml : raml :=
  Eval vm_compute in
    converted_or_undefined (convertOAuth2 renaming_authorization).

(** [renaming_authorization] with its keys in another order and with
    properties the converter does not read. *)
Definition renaming_with_more_keys : data :=
  VObj [ ("name", VStr "oauth");
         ("grantTypes", read renaming_authorization "grantTypes");
         ("url", VStr "http://example.com/oauth");
         ("type", VStr "oauth2") ].

(** [{ apis: { pet: { path: '/pet' } } }]: the apis given as a mapping
    instead of an array. *)
Definition apis_as_mapping : data :=
  VObj [ ("apis", VObj [ ("pet", VObj [ ("path", VStr "/pet") ]) ]) ].

(** [{ info: {}, apis: [], authorizations: {} }]. *)
Definition empty_sections : data :=
  VObj [ ("info", VObj []); ("apis", VArr []); ("authorizations", VObj []) ].

(** An OAuth 2.0 authorization with an empty [scopes] array. *)
Definition empty_scopes_authorization : data :=
  VObj [ ("type", VStr "oauth2");
         ("scopes", VArr []);
         ("grantTypes", VObj [ ("implicit", VObj []) ]) ].

Definition empty_scopes_raml : raml :=
  Eval vm_compute in
    converted_or_undefined (convertOAuth2 empty_scopes_authorization).

(** An OAuth 2.0 authorization whose [scopes] array holds [null]. *)
Definition null_scope_authorization : data :=
  VObj [ ("type", VStr "oauth2");
         ("scopes", VArr [ VObj [ ("scope", VStr "read") ]; VNull ]);
         ("grantTypes", VObj []) ].

(** * Reasoning about the JavaScript fragment *)

(** The fragment on a few inputs. *)

Example keys_of_array :
  keys (VArr [VStr "a"; VStr "b"] : data) = Ok ["0"; "1"].
Proof. reflexivity. Qed.

Example get_of_undefined_throws :
  get VUndefined "type" = Throw TypeError.
Proof. reflexivity. Qed.

Example get_of_missing_property :
  get (VObj [ ("path", VStr "/pets") ]) "description" = Ok VUndefined.
Proof. reflexivity. Qed.

Example to_string_of_array :
  to_string (VArr [VNum (-5); VNull; VArr [VStr "a"; VBool true]; VObj []])
  = Ok "-5,,a,true,[object Object]".
Proof. reflexivity. Qed.

Example to_string_with_own_toString_throws :
  to_string (VObj [ ("toString", VStr "x") ]) = Throw TypeError.
Proof. reflexivity. Qed.

Example set_prop_appends_then_overwrites :
  set_prop (set_prop (set_prop [] "a" (VNum 1 : raml)) "b" (VNum 2)) "a" (VNum 3)
  = [ ("a", VNum 3); ("b", VNum 2) ].
Proof. reflexivity. Qed.

Example set_prop_proto_creates_nothing :
  set_prop [] "__proto__" (VUndefined : raml) = [].
Proof. reflexivity. Qed.

Example table_get_own_inherited_missing :
  table_get GRANT_TYPE_MAP "implicit" = Own "token" /\
  table_get GRANT_TYPE_MAP "toString" = Inherited NToString /\
  table_get GRANT_TYPE_MAP "password" = Missing.
Proof. repeat split; reflexivity. Qed.

Lemma get_ok (v : data) (k : string) :
  nullish v = false -> get v k = Ok (read v k).
Proof.
  unfold read; destruct v as [| | b | n | s | l | l | []]; simpl;
    try discriminate; intros _; try reflexivity;
    destruct (k =? "length"); reflexivity.
Qed.

Lemma get_throw (v : data) (k : string) :
  nullish v = true -> get v k = Throw TypeError.
Proof.
  destruct v as [| | b | n | s | l | l | []]; simpl; try discriminate;
    reflexivity.
Qed.

Lemma truthy_not_nullish {N} (v : value N) :
  truthy v = true -> nullish v = false.
Proof. destruct v; simpl; try discriminate; reflexivity. Qed.

Lemma bind_ok {A B} (c : result A) (k : A -> result B) (b : B) :
  bind c k = Ok b -> exists a, c = Ok a /\ k a = Ok b.
Proof. destruct c as [a | e]; simpl; [eauto | discriminate]. Qed.

(** Peel one [bind] off a hypothesis [H : (x <- c ;; k) = Ok b]. *)
Ltac bind_inv H x Hx :=
  apply bind_ok in H; destruct H as (x & Hx & H).

Lemma mapM_pure {A B} (g : A -> B) (l : list A) :
  mapM (fun x => Ok (g x)) l = Ok (map g l).
Proof. induction l as [| x r IH]; simpl; [| rewrite IH]; reflexivity. Qed.

Lemma mapM_ext_in {A B} (f g : A -> result B) (l : list A) :
  (forall x, In x l -> f x = g x) -> mapM f l = mapM g l.
Proof.
  induction l as [| x r IH]; simpl; intros H; [reflexivity |].
  rewrite (H x (or_introl eq_refl)), IH; [reflexivity |].
  intros y Hy; apply H; right; exact Hy.
Qed.

Lemma mapM_length {A B} (f : A -> result B) (l : list A) (ys : list B) :
  mapM f l = Ok ys -> List.length ys = List.length l.
Proof.
  revert ys; induction l as [| x r IH]; simpl; intros ys H.
  - injection H as <-; reflexivity.
  - bind_inv H y Hy; bind_inv H ys' Hys; injection H as <-.
    simpl; f_equal; apply IH; exact Hys.
Qed.

Lemma mapM_nth {A B} (f : A -> result B) (l : list A) (ys : list B) :
  mapM f l = Ok ys ->
  forall i x, nth_error l i = Some x ->
  exists y, nth_error ys i = Some y /\ f x = Ok y.
Proof.
  revert ys; induction l as [| a r IH]; simpl; intros ys H i x Hi.
  - destruct i; discriminate.
  - bind_inv H y Hy; bind_inv H ys' Hys; injection H as <-.
    destruct i as [| i]; simpl in *.
    + injection Hi as <-; eauto.
    + eapply IH; eauto.
Qed.

Lemma filterM_pure {A} (p : A -> bool) (l : list A) :
  filterM (fun x => Ok (p x)) l = Ok (filter p l).
Proof.
  induction l as [| x r IH]; simpl; [reflexivity |].
  rewrite IH; simpl; reflexivity.
Qed.

(** *** Own properties after a write *)

Lemma assoc_app {A} (k : string) (l1 l2 : list (string * A)) :
  assoc k (l1 ++ l2) =
  match assoc k l1 with Some a => Some a | None => assoc k l2 end.
Proof.
  induction l1 as [| [k' a] r IH]; simpl; [reflexivity |].
  destruct (k' =? k); [reflexivity | exact IH].
Qed.

Lemma assoc_replace_same {A} (k : string) (a : A) (l : list (string * A)) :
  has_own k l = true -> assoc k (replace k a l) = Some a.
Proof.
  unfold has_own; induction l as [| [k' a'] r IH]; simpl; [discriminate |].
  destruct (k' =? k) eqn:E; simpl; rewrite E; [reflexivity | exact IH].
Qed.

Lemma assoc_replace_other {A} (k k' : string) (a : A) (l : list (string * A)) :
  k <> k' -> assoc k (replace k' a l) = assoc k l.
Proof.
  intros Hk; induction l as [| [k0 a0] r IH]; simpl; [reflexivity |].
  destruct (k0 =? k') eqn:E; simpl.
  - apply String.eqb_eq in E; subst k0.
    destruct (k' =? k) eqn:E'; [| reflexivity].
    apply String.eqb_eq in E'; congruence.
  - destruct (k0 =? k); [reflexivity | exact IH].
Qed.

Lemma assoc_set_prop_same {N} (o : object N) (k : string) (v : value N) :
  k <> "__proto__" -> assoc k (set_prop o k v) = Some v.
Proof.
  intros Hk; unfold set_prop.
  destruct (has_own k o) eqn:E; [apply assoc_replace_same; exact E |].
  apply String.eqb_neq in Hk; rewrite Hk, assoc_app.
  unfold has_own in E; destruct (assoc k o); [discriminate |].
  simpl; rewrite String.eqb_refl; reflexivity.
Qed.

Lemma assoc_set_prop_other {N} (o : object N) (k k' : string) (v : value N) :
  k <> k' -> assoc k (set_prop o k' v) = assoc k o.
Proof.
  intros Hk; unfold set_prop.
  destruct (has_own k' o); [apply assoc_replace_other; exact Hk |].
  destruct (k' =? "__proto__"); [reflexivity |].
  rewrite assoc_app; destruct (assoc k o); [reflexivity |].
  simpl; destruct (k' =? k) eqn:E; [| reflexivity].
  apply String.eqb_eq in E; congruence.
Qed.

(** * The document level: [convertInfo], [convertApis], [converter] *)

Lemma filterM_ext {A} (f g : A -> result bool) (l : list A) :
  (forall x, f x = g x) -> filterM f l = filterM g l.
Proof.
  intros H; induction l as [| x r IH]; simpl; [reflexivity |].
  rewrite H, IH; reflexivity.
Qed.

(** [convertInfo] never throws, and this is what it returns. *)
Lemma convertInfo_eq (info : data) (o : object native) :
  convertInfo info o =
  Ok (if truthy info then
        let o1 := set_prop o "title" (lift (read info "title")) in
        if has_length (documentation_of info)
        then set_prop o1 "documentation" (VArr (documentation_of info))
        else o1
      else o).
Proof.
  unfold convertInfo; destruct (truthy info) eqn:T; cbn [negb]; [| reflexivity].
  assert (G : forall k, get info k = Ok (read info k))
    by (intros k; apply get_ok, truthy_not_nullish, T).
  rewrite (filterM_ext _ (fun key => Ok (truthy (read info key))))
    by (intros key; rewrite G; reflexivity).
  rewrite filterM_pure; cbn [bind].
  rewrite (mapM_ext_in _
             (fun key => Ok (VObj [ ("title",
                                     looked_up_value
                                       (table_get DOCUMENTATION_NAME_MAP key));
                                    ("content", lift (read info key)) ])))
    by (intros key _; unfold documentation_entry; rewrite G; reflexivity).
  rewrite mapM_pure, G; cbn [bind].
  replace (map _ (filter _ (map fst DOCUMENTATION_NAME_MAP)))
    with (documentation_of info); [reflexivity |].
  unfold documentation_of; simpl.
  destruct (truthy (read info "description")),
           (truthy (read info "termsOfServiceUrl")),
           (truthy (read info "contact")),
           (truthy (read info "license")),
           (truthy (read info "licenseUrl")); reflexivity.
Qed.

Lemma resource_entry_eq (api : data) :
  resource_entry api =
  if nullish api then Throw TypeError else Ok (resource_of api).
Proof.
  unfold resource_entry, resource_of; destruct (nullish api) eqn:E.
  - rewrite (get_throw _ _ E); reflexivity.
  - rewrite !(get_ok _ _ E); reflexivity.
Qed.

Lemma mapM_resource_entry (l : list data) (rs : list raml) :
  mapM resource_entry l = Ok rs ->
  forallb (fun api => negb (nullish api)) l = true /\ rs = map resource_of l.
Proof.
  revert rs; induction l as [| api r IH]; simpl; intros rs H.
  - injection H as <-; auto.
  - bind_inv H y Hy; bind_inv H ys Hys; injection H as <-.
    rewrite resource_entry_eq in Hy; destruct (nullish api); [discriminate |].
    injection Hy as <-; destruct (IH _ Hys) as (-> & ->); auto.
Qed.

Lemma convertApis_inv (apis : data) (o o' : object native) :
  convertApis apis o = Ok o' ->
  (truthy apis = false /\ o' = o) \/
  (truthy apis = true /\
   exists l, apis = VArr l /\
             forallb (fun api => negb (nullish api)) l = true /\
             o' = set_prop o "resources" (VArr (map resource_of l))).
Proof.
  unfold convertApis; destruct (truthy apis) eqn:T; simpl; intros H.
  - right; split; [reflexivity |].
    bind_inv H rs Hrs; injection H as <-.
    destruct apis as [| | b | n | s | l | l | []]; try discriminate.
    simpl in Hrs; apply mapM_resource_entry in Hrs; destruct Hrs as (Hl & ->).
    eauto.
  - left; injection H as <-; auto.
Qed.

Lemma convertAuthorizations_inv (authorizations : data) (o o' : object native) :
  convertAuthorizations authorizations o = Ok o' ->
  (truthy authorizations = false /\ o' = o) \/
  (truthy authorizations = true /\
   exists schemes,
     mapM (scheme_entry authorizations) (map fst (entries authorizations))
       = Ok schemes /\
     o' = set_prop o "securitySchemes" (VArr schemes)).
Proof.
  unfold convertAuthorizations; destruct (truthy authorizations) eqn:T; simpl;
    intros H.
  - right; split; [reflexivity |].
    unfold keys in H; rewrite (truthy_not_nullish _ T) in H; cbn [bind] in H.
    bind_inv H schemes Hs; injection H as <-; eauto.
  - left; injection H as <-; auto.
Qed.

Lemma converter_inv (resource : data) (out : raml) :
  converter resource = Ok out ->
  nullish resource = false /\
  exists o1 o2 o3,
    convertInfo (read resource "info") [] = Ok o1 /\
    convertApis (read resource "apis") o1 = Ok o2 /\
    convertAuthorizations (read resource "authorizations") o2 = Ok o3 /\
    out = VObj (if truthy (read resource "apiVersion")
                then set_prop o3 "version" (lift (read resource "apiVersion"))
                else o3).
Proof.
  unfold converter; intros H.
  destruct (nullish resource) eqn:E;
    [rewrite (get_throw _ _ E) in H; discriminate |].
  rewrite !(get_ok _ _ E) in H; cbn [bind] in H.
  bind_inv H o1 H1; cbn [bind] in H.
  bind_inv H o2 H2; cbn [bind] in H.
  bind_inv H o3 H3; cbn [bind] in H.
  injection H as <-; split; [reflexivity |].
  exists o1, o2, o3; auto.
Qed.

(** The five top-level fields of a converted document, each in terms of the
    source section it comes from. *)
Lemma converter_fields (resource : data) (out : raml) :
  converter resource = Ok out ->
  let info := read resource "info" in
  let apis := read resource "apis" in
  let authorizations := read resource "authorizations" in
  let apiVersion := read resource "apiVersion" in
  field out "title" =
    (if truthy info then Some (lift (read info "title")) else None) /\
  field out "documentation" =
    (if truthy info && has_length (documentation_of info)
     then Some (VArr (documentation_of info)) else None) /\
  (if truthy apis
   then exists l, apis = VArr l /\
                  field out "resources" = Some (VArr (map resource_of l))
   else field out "resources" = None) /\
  (if truthy authorizations
   then exists schemes,
          mapM (scheme_entry authorizations) (map fst (entries authorizations))
            = Ok schemes /\
          field out "securitySchemes" = Some (VArr schemes)
   else field out "securitySchemes" = None) /\
  field out "version" =
    (if truthy apiVersion then Some (lift apiVersion) else None).
Proof.
  intros H; apply converter_inv in H.
  destruct H as (_ & o1 & o2 & o3 & H1 & H2 & H3 & ->).
  rewrite convertInfo_eq in H1; injection H1 as <-.
  apply convertApis_inv in H2; apply convertAuthorizations_inv in H3.
  cbv zeta.
  destruct H2 as [(T2 & ->) | (T2 & l & E2 & _ & ->)];
    destruct H3 as [(T3 & ->) | (T3 & schemes & Hs & ->)];
    rewrite T2, T3;
    destruct (truthy (read resource "info"));
    destruct (has_length (documentation_of (read resource "info")));
    destruct (truthy (read resource "apiVersion"));
    cbn -[documentation_of resource_of scheme_entry entries];
    repeat split; eauto.
Qed.

(** * The OAuth 2.0 scheme *)

Lemma append_assoc (a b c : string) : ((a ++ b) ++ c = a ++ b ++ c)%string.
Proof. induction a as [| x a IH]; simpl; [| rewrite IH]; reflexivity. Qed.

Lemma describe_override_eq (name : data) (standard before after : string)
  (description : list string) :
  describe_override name standard before after description =
  (e <- override_line name standard before after ;; Ok (description ++ e)%list).
Proof.
  unfold describe_override, override_line, concat_value.
  destruct (truthy name && negb (is_str name standard)).
  - destruct (to_string name) as [t | e]; simpl; [| reflexivity].
    rewrite append_assoc; reflexivity.
  - simpl; rewrite app_nil_r; reflexivity.
Qed.

Ltac case_forallb :=
  match goal with
  | |- context [forallb ?f ?l] => destruct (forallb f l)
  end.

Lemma map_scopes_eq (l : list data) (acc : list string) :
  map_scopes l acc =
  if forallb (fun scope => negb (nullish scope)) l then
    lines <- mapM scope_line (filter described l) ;;
    Ok (map (fun scope => read scope "scope") l, (acc ++ lines)%list)
  else Throw TypeError.
Proof.
  revert acc; induction l as [| scope r IH]; intros acc; simpl.
  - rewrite app_nil_r; reflexivity.
  - destruct (nullish scope) eqn:E; simpl.
    + rewrite (get_throw _ _ E); reflexivity.
    + rewrite !(get_ok _ _ E); cbn [bind filter]; unfold described at 1.
      destruct (truthy (read scope "description")); cbn [bind mapM].
      * unfold scope_line at 1, concat_value.
        destruct (to_string (read scope "scope")) as [n | []]; cbn [bind];
          [| case_forallb; reflexivity].
        destruct (to_string (read scope "description")) as [d | []]; cbn [bind];
          [| case_forallb; reflexivity].
        rewrite IH; case_forallb; [| reflexivity].
        destruct (mapM scope_line (filter described r)) as [lines | e];
          cbn [bind fst snd]; [| reflexivity].
        rewrite <- app_assoc; simpl; rewrite append_assoc; reflexivity.
      * rewrite IH; case_forallb; [| reflexivity].
        destruct (mapM scope_line (filter described r)) as [lines | e];
          cbn [bind fst snd]; reflexivity.
Qed.

Lemma replace_same {A} (k : string) (a : A) (l : list (string * A)) :
  assoc k l = Some a -> replace k a l = l.
Proof.
  induction l as [| [k' a'] r IH]; simpl; [reflexivity |].
  destruct (k' =? k); intros H; [congruence | rewrite (IH H); reflexivity].
Qed.

Lemma replace_replace {A} (k : string) (a b : A) (l : list (string * A)) :
  replace k b (replace k a l) = replace k b l.
Proof.
  induction l as [| [k' a'] r IH]; simpl; [reflexivity |].
  destruct (k' =? k) eqn:E; simpl; rewrite E; [| rewrite IH]; reflexivity.
Qed.

Lemma push_grants_eq (ks : list string) (s : object native) (g0 : list raml) :
  assoc "authorizationGrants" s = Some (VArr g0) ->
  push_grants ks s =
  Ok (replace "authorizationGrants" (VArr (g0 ++ map grant_of ks)) s).
Proof.
  revert s g0; induction ks as [| k r IH]; intros s g0 H; simpl.
  - rewrite app_nil_r, (replace_same _ _ _ H); reflexivity.
  - unfold push; rewrite H; cbn [bind].
    rewrite (IH _ (g0 ++ [grant_of k])%list).
    + rewrite replace_replace, <- app_assoc; reflexivity.
    + apply assoc_replace_same; unfold has_own; rewrite H; reflexivity.
Qed.

Lemma oauth2_scopes_eq (a : data) (s : object native) (d : list string) :
  nullish a = false ->
  oauth2_scopes a (s, d) =
  (lines <- scope_lines a ;;
   Ok (if has_scopes a then set_prop s "scopes" (VArr (scope_names a)) else s,
       (d ++ scope_block lines)%list)).
Proof.
  intros Ha; unfold oauth2_scopes, scope_lines, has_scopes, scope_names.
  rewrite (get_ok _ _ Ha); cbn [bind].
  destruct (truthy (read a "scopes")) eqn:T; cbn [andb].
  - rewrite (get_ok _ _ (truthy_not_nullish _ T)); cbn [bind].
    destruct (truthy (read (read a "scopes") "length")).
    + destruct (read a "scopes") as [| | b | n | t | l | l | []];
        try reflexivity.
      rewrite map_scopes_eq; cbn [entries]; case_forallb; [| reflexivity].
      destruct (mapM scope_line (filter described l)) as [lines | e];
        cbn [bind]; [| reflexivity].
      unfold scope_block, indexed.
      rewrite map_map, app_nil_l.
      replace (map snd (combine (map index_key (seq 0 (List.length l))) l))
        with l;
        [destruct (has_length lines); rewrite ?app_nil_r; reflexivity |].
      clear; generalize 0; induction l as [| x r IH]; intros n; simpl;
        [| rewrite <- IH]; reflexivity.
    + cbn [bind]; rewrite app_nil_r; reflexivity.
  - cbn [bind]; rewrite T; simpl; rewrite app_nil_r; reflexivity.
Qed.

Lemma oauth2_grants_eq (a : data) (s : object native) (d : list string)
  (g0 : list raml) :
  nullish a = false ->
  assoc "authorizationGrants" s = Some (VArr g0) ->
  oauth2_grants a (s, d) =
  if nullish (read a "grantTypes") then Throw TypeError
  else Ok (replace "authorizationGrants"
             (VArr (g0 ++ map grant_of
                            (map fst (entries (read a "grantTypes"))))) s, d).
Proof.
  intros Ha Hs; unfold oauth2_grants, keys.
  rewrite (get_ok _ _ Ha); cbn [bind].
  destruct (nullish (read a "grantTypes")); [reflexivity |].
  cbn [bind]; rewrite (push_grants_eq _ _ _ Hs); reflexivity.
Qed.

Lemma oauth2_implicit_eq (implicit : data) (s : object native)
  (d : list string) :
  oauth2_implicit implicit (s, d) =
  (il <- implicit_lines implicit ;;
   Ok (if truthy implicit && truthy (login_url implicit)
       then set_prop s "authorizationUri" (lift (login_url implicit))
       else s,
       (d ++ il)%list)).
Proof.
  unfold oauth2_implicit, implicit_lines, login_url.
  destruct (truthy implicit) eqn:T; cbn [andb bind];
    [| rewrite app_nil_r; reflexivity].
  pose proof (truthy_not_nullish _ T) as Hn.
  rewrite !(get_ok _ _ Hn); cbn [bind].
  rewrite describe_override_eq.
  destruct (truthy (read implicit "loginEndpoint")) eqn:L; cbn [bind].
  - rewrite (get_ok _ _ (truthy_not_nullish _ L)); cbn [bind].
    destruct (override_line _ _ _ _); reflexivity.
  - rewrite L; destruct (override_line _ _ _ _); reflexivity.
Qed.

Lemma oauth2_authCode_eq (authCode : data) (s : object native)
  (d : list string) :
  oauth2_authCode authCode (s, d) =
  if truthy authCode then
    if nullish (read authCode "tokenEndpoint")
       || nullish (read authCode "tokenRequestEndpoint")
    then Throw TypeError
    else
      al <- authCode_lines authCode ;;
      Ok (set_prop
            (set_prop s "accessTokenUri"
               (lift (read (read authCode "tokenEndpoint") "url")))
            "authorizationUri"
            (lift (read (read authCode "tokenRequestEndpoint") "url")),
          (d ++ al)%list)
  else Ok (s, d).
Proof.
  unfold oauth2_authCode, authCode_lines.
  destruct (truthy authCode) eqn:T; [| reflexivity].
  pose proof (truthy_not_nullish _ T) as Hn.
  rewrite !(get_ok _ _ Hn); cbn [bind].
  destruct (nullish (read authCode "tokenRequestEndpoint")) eqn:R.
  { rewrite (get_throw _ _ R), orb_true_r; reflexivity. }
  rewrite !(get_ok _ _ R); cbn [bind].
  destruct (nullish (read authCode "tokenEndpoint")) eqn:E.
  { rewrite (get_throw _ _ E); reflexivity. }
  rewrite !(get_ok _ _ E); cbn [bind orb].
  rewrite !describe_override_eq.
  destruct (override_line (read _ "clientIdName") _ _ _) as [x | e];
    cbn [bind]; [| reflexivity].
  rewrite describe_override_eq.
  destruct (override_line (read _ "clientSecretName") _ _ _) as [y | e];
    cbn [bind]; [| reflexivity].
  rewrite describe_override_eq.
  destruct (override_line (read _ "tokenName") _ _ _) as [z | e];
    cbn [bind]; [| reflexivity].
  rewrite <- !app_assoc; reflexivity.
Qed.

(** [convertOAuth2] in one equation: where it throws, and what it returns. *)
Lemma convertOAuth2_eq (a : data) :
  convertOAuth2 a =
  let grantTypes := read a "grantTypes" in
  let implicit := read grantTypes "implicit" in
  let authCode := read grantTypes "authorization_code" in
  if nullish a || nullish grantTypes then Throw TypeError
  else
    sl <- scope_lines a ;;
    il <- implicit_lines implicit ;;
    if truthy authCode
       && (nullish (read authCode "tokenEndpoint")
           || nullish (read authCode "tokenRequestEndpoint"))
    then Throw TypeError
    else
      al <- authCode_lines authCode ;;
      Ok (VObj ([ ("type", VStr "OAuth 2.0");
                  ("settings", VObj (settings_of a)) ]
                ++ description_part (scope_block sl ++ il ++ al))).
Proof.
  unfold convertOAuth2; cbv zeta.
  destruct (nullish a) eqn:Ha; [rewrite (get_throw _ _ Ha); reflexivity |].
  rewrite (get_ok _ _ Ha); cbn [bind orb].
  destruct (nullish (read a "grantTypes")) eqn:Hg;
    [rewrite (get_throw _ _ Hg); reflexivity |].
  rewrite !(get_ok _ _ Hg); cbn [bind].
  rewrite (oauth2_scopes_eq _ _ _ Ha).
  destruct (scope_lines a) as [sl | e]; cbn [bind]; [| reflexivity].
  assert (Hs : exists s1 : object native,
             (if has_scopes a
              then set_prop [("authorizationGrants", VArr [])] "scopes"
                     (VArr (scope_names a))
              else [("authorizationGrants", VArr [])]) = s1 /\
             assoc "authorizationGrants" s1 = Some (VArr [])).
  { destruct (has_scopes a); eexists; split; reflexivity. }
  destruct Hs as (s1 & Es1 & Hs1).
  unfold settings_of; cbv zeta; rewrite Es1.
  rewrite (oauth2_grants_eq _ _ _ _ Ha Hs1), Hg; cbn [bind].
  rewrite oauth2_implicit_eq, app_nil_l.
  destruct (implicit_lines _) as [il | e]; cbn [bind]; [| reflexivity].
  rewrite oauth2_authCode_eq.
  destruct (truthy (read (read a "grantTypes") "authorization_code")) eqn:T;
    cbn [andb].
  - destruct (nullish _ || nullish _); [reflexivity |].
    destruct (authCode_lines _) as [al | e]; cbn [bind]; [| reflexivity].
    rewrite <- app_assoc; unfold description_part.
    destruct (has_length _); reflexivity.
  - unfold authCode_lines; rewrite T; cbn [bind].
    rewrite app_nil_r; unfold description_part.
    destruct (has_length _); reflexivity.
Qed.

(** The four settings [convertOAuth2] can store, read back. *)
Lemma settings_of_fields (a : data) :
  let grantTypes := read a "grantTypes" in
  let implicit := read grantTypes "implicit" in
  let authCode := read grantTypes "authorization_code" in
  assoc "authorizationGrants" (settings_of a) =
    Some (VArr (map grant_of (map fst (entries grantTypes)))) /\
  assoc "scopes" (settings_of a) =
    (if has_scopes a then Some (VArr (scope_names a)) else None) /\
  assoc "authorizationUri" (settings_of a) =
    (if truthy authCode
     then Some (lift (read (read authCode "tokenRequestEndpoint") "url"))
     else if truthy implicit && truthy (login_url implicit)
          then Some (lift (login_url implicit))
          else None) /\
  assoc "accessTokenUri" (settings_of a) =
    (if truthy authCode
     then Some (lift (read (read authCode "tokenEndpoint") "url"))
     else None).
Proof.
  unfold settings_of; cbv zeta.
  destruct (has_scopes a);
    destruct (truthy (read (read a "grantTypes") "implicit")
              && truthy (login_url (read (read a "grantTypes") "implicit")));
    destruct (truthy (read (read a "grantTypes") "authorization_code"));
    repeat split; reflexivity.
Qed.

(** * Where the converter throws *)

Lemma returns_ok {A} (c : result A) :
  returns c = true <-> exists a, c = Ok a.
Proof.
  destruct c as [a | e]; simpl; split; eauto; try discriminate.
  intros (a & H); discriminate.
Qed.

Lemma returns_throw {A} (c : result A) :
  returns c = false <-> c = Throw TypeError.
Proof.
  destruct c as [a | []]; simpl; split; auto; discriminate.
Qed.

Lemma returns_bind {A B} (c : result A) (k : A -> result B) :
  returns (bind c k) =
  match c with Ok a => returns (k a) | Throw _ => false end.
Proof. destruct c; reflexivity. Qed.

Lemma returns_mapM {A B} (f : A -> result B) (l : list A) :
  returns (mapM f l) = forallb (fun x => returns (f x)) l.
Proof.
  induction l as [| x r IH]; simpl; [reflexivity |].
  destruct (f x) as [y | e]; simpl; [| reflexivity].
  rewrite <- IH; destruct (mapM f r); reflexivity.
Qed.

Lemma falsy_stringable (v : data) : truthy v = false -> stringable v = true.
Proof.
  destruct v as [| | [] | n | s | l | l | []]; simpl; try discriminate;
    reflexivity.
Qed.

Lemma returns_override_line (name : data) (standard before after : string) :
  returns (override_line name standard before after) = stringable name.
Proof.
  unfold override_line, stringable.
  destruct (truthy name) eqn:T; simpl.
  - destruct (is_str name standard) eqn:I; simpl.
    + destruct name; try discriminate I; reflexivity.
    + destruct (to_string name); reflexivity.
  - symmetry; apply falsy_stringable; exact T.
Qed.

Lemma forallb_filter_split {A} (p d q : A -> bool) (l : list A) :
  forallb p l && forallb q (filter d l) =
  forallb (fun x => p x && (negb (d x) || q x)) l.
Proof.
  induction l as [| x r IH]; simpl; [reflexivity |].
  rewrite <- IH; clear IH.
  destruct (d x); simpl; destruct (p x), (q x); simpl;
    rewrite ?andb_false_r; reflexivity.
Qed.

Lemma forallb_ext {A} (f g : A -> bool) (l : list A) :
  (forall x, f x = g x) -> forallb f l = forallb g l.
Proof.
  intros H; induction l as [| x r IH]; simpl; [| rewrite H, IH]; reflexivity.
Qed.

Lemma returns_scope_line (scope : data) :
  returns (scope_line scope) =
  stringable (read scope "scope") && stringable (read scope "description").
Proof.
  unfold scope_line, stringable.
  destruct (to_string (read scope "scope")); simpl; [| reflexivity].
  destruct (to_string (read scope "description")); reflexivity.
Qed.

Lemma returns_scope_lines (a : data) :
  returns (scope_lines a) = well_formed_scopes a.
Proof.
  unfold scope_lines, well_formed_scopes.
  destruct (has_scopes a); simpl; [| reflexivity].
  destruct (read a "scopes") as [| | b | n | s | l | l | []]; try reflexivity.
  unfold well_formed_scope.
  rewrite <- (forallb_filter_split (fun x => negb (nullish x)) described
                (fun x => stringable (read x "scope")
                          && stringable (read x "description"))).
  case_forallb; simpl; [| reflexivity].
  rewrite returns_mapM; apply forallb_ext; intros x; apply returns_scope_line.
Qed.

Lemma returns_implicit_lines (implicit : data) :
  returns (implicit_lines implicit) = well_formed_implicit implicit.
Proof.
  unfold implicit_lines, well_formed_implicit.
  destruct (truthy implicit); simpl; [apply returns_override_line |].
  reflexivity.
Qed.

Lemma returns_authCode_lines (authCode : data) :
  truthy authCode = true ->
  returns (authCode_lines authCode) =
  stringable (read (read authCode "tokenRequestEndpoint") "clientIdName")
  && stringable (read (read authCode "tokenRequestEndpoint") "clientSecretName")
  && stringable (read (read authCode "tokenEndpoint") "tokenName").
Proof.
  intros T; unfold authCode_lines; rewrite T; cbv zeta.
  rewrite <- (returns_override_line
                (read (read authCode "tokenRequestEndpoint") "clientIdName")
                "client_id" ("The code grant uses " ++ dquote)
                (dquote ++ " as the parameter for passing the client id.")).
  rewrite <- (returns_override_line
                (read (read authCode "tokenRequestEndpoint") "clientSecretName")
                "client_secret" ("The code grant uses " ++ dquote)
                (dquote ++ " as the parameter for passing the client secret.")).
  rewrite <- (returns_override_line
                (read (read authCode "tokenEndpoint") "tokenName")
                "access_code" ("The code grant uses " ++ dquote)
                (dquote
                 ++ " as the parameter for passing the authorization token.")).
  destruct (override_line (read _ "clientIdName") _ _ _); simpl;
    [| reflexivity].
  destruct (override_line (read _ "clientSecretName") _ _ _); simpl;
    [| reflexivity].
  destruct (override_line (read _ "tokenName") _ _ _); reflexivity.
Qed.

Lemma returns_convertOAuth2 (a : data) :
  returns (convertOAuth2 a) = negb (nullish a) && well_formed_oauth2 a.
Proof.
  rewrite convertOAuth2_eq; unfold well_formed_oauth2; cbv zeta.
  destruct (nullish a); [reflexivity |].
  destruct (nullish (read a "grantTypes")); [reflexivity |]; simpl.
  rewrite returns_bind, <- returns_scope_lines.
  destruct (scope_lines a); simpl; [| reflexivity].
  rewrite returns_bind, <- returns_implicit_lines.
  destruct (implicit_lines _); simpl; [| reflexivity].
  unfold well_formed_authCode; cbv zeta.
  destruct (truthy (read (read a "grantTypes") "authorization_code")) eqn:T;
    simpl.
  - destruct (nullish (read _ "tokenEndpoint")); [reflexivity |].
    destruct (nullish (read _ "tokenRequestEndpoint")); [reflexivity |]; simpl.
    rewrite returns_bind, <- (returns_authCode_lines _ T).
    destruct (authCode_lines _); reflexivity.
  - unfold authCode_lines; rewrite T; reflexivity.
Qed.

(** [convertApiKey] in one equation. *)
Lemma convertApiKey_eq (a : data) :
  convertApiKey a =
  if nullish a then Throw TypeError
  else
    passAs <- to_string (read a "passAs") ;;
    let describedBy := table_get API_KEY_PASS_AS_MAP passAs in
    if looked_up_truthy describedBy then
      name <- to_string (read a "keyname") ;;
      Ok (VObj [ ("type", VStr "x-api-key");
                 ("describedBy",
                  VObj (set_prop [] (looked_up_key describedBy)
                          (VObj (set_prop [] name api_key_parameter)))) ])
    else Ok (VObj [ ("type", VStr "x-api-key"); ("describedBy", VObj []) ]).
Proof.
  unfold convertApiKey; destruct (nullish a) eqn:Ha.
  - rewrite (get_throw _ _ Ha); reflexivity.
  - rewrite (get_ok _ _ Ha); cbn [bind].
    destruct (to_string (read a "passAs")) as [p | e]; cbn [bind];
      [| reflexivity].
    cbv zeta; destruct (looked_up_truthy _); [| reflexivity].
    rewrite (get_ok _ _ Ha); reflexivity.
Qed.

Lemma returns_convertApiKey (a : data) :
  returns (convertApiKey a) = negb (nullish a) && well_formed_apiKey a.
Proof.
  rewrite convertApiKey_eq; unfold well_formed_apiKey, stringable.
  destruct (nullish a); [reflexivity |]; simpl.
  destruct (to_string (read a "passAs")) as [p | e]; simpl; [| reflexivity].
  destruct (looked_up_truthy _); simpl; [| reflexivity].
  destruct (to_string (read a "keyname")); reflexivity.
Qed.

(** [convertAuthorization] in one equation. *)
Lemma convertAuthorization_eq (a : data) :
  convertAuthorization a =
  if nullish a then Throw TypeError
  else
    let type := read a "type" in
    if is_str type "oauth2" then convertOAuth2 a
    else if is_str type "apiKey" then convertApiKey a
    else if is_str type "basicAuth"
         then Ok (VObj [ ("type", VStr "Basic Authentication") ])
         else Ok VUndefined.
Proof.
  unfold convertAuthorization; destruct (nullish a) eqn:Ha.
  - rewrite (get_throw _ _ Ha); reflexivity.
  - rewrite (get_ok _ _ Ha); reflexivity.
Qed.

Lemma returns_convertAuthorization (a : data) :
  returns (convertAuthorization a) = well_formed_authorization a.
Proof.
  rewrite convertAuthorization_eq; unfold well_formed_authorization.
  destruct (nullish a) eqn:Ha; [reflexivity |]; cbv zeta; simpl.
  destruct (is_str (read a "type") "oauth2");
    [rewrite returns_convertOAuth2, Ha; reflexivity |].
  destruct (is_str (read a "type") "apiKey");
    [rewrite returns_convertApiKey, Ha; reflexivity |].
  destruct (is_str (read a "type") "basicAuth"); reflexivity.
Qed.

Lemma scheme_entry_eq (authorizations : data) (key : string) :
  nullish authorizations = false ->
  scheme_entry authorizations key =
  (scheme <- convertAuthorization (read authorizations key) ;;
   Ok (VObj (set_prop [] key scheme))).
Proof.
  intros H; unfold scheme_entry; rewrite (get_ok _ _ H); reflexivity.
Qed.

Lemma returns_convertAuthorizations (authorizations : data)
  (o : object native) :
  returns (convertAuthorizations authorizations o) =
  well_formed_authorizations authorizations.
Proof.
  unfold convertAuthorizations, well_formed_authorizations, keys.
  destruct (truthy authorizations) eqn:T; simpl; [| reflexivity].
  pose proof (truthy_not_nullish _ T) as Hn; rewrite Hn; cbn [bind].
  rewrite returns_bind.
  rewrite <- (forallb_ext (fun key => returns (scheme_entry authorizations key))).
  - rewrite <- returns_mapM; destruct (mapM _ _); reflexivity.
  - intros key; rewrite (scheme_entry_eq _ _ Hn), returns_bind.
    rewrite <- returns_convertAuthorization.
    destruct (convertAuthorization _); reflexivity.
Qed.

Lemma returns_convertApis (apis : data) (o : object native) :
  returns (convertApis apis o) = well_formed_apis apis.
Proof.
  unfold convertApis, well_formed_apis.
  destruct (truthy apis); simpl; [| reflexivity].
  destruct apis as [| | b | n | s | l | l | []]; try reflexivity.
  simpl; rewrite returns_bind, <- (forallb_ext (fun api => returns (resource_entry api))).
  - rewrite <- returns_mapM; destruct (mapM _ _); reflexivity.
  - intros api; rewrite resource_entry_eq; destruct (nullish api); reflexivity.
Qed.

(** [converter] returns exactly on the well-formed documents. *)
Lemma returns_converter (resource : data) :
  returns (converter resource) = well_formed resource.
Proof.
  unfold converter, well_formed.
  destruct (nullish resource) eqn:E;
    [rewrite (get_throw _ _ E); reflexivity |].
  rewrite !(get_ok _ _ E); cbn [bind negb andb].
  rewrite convertInfo_eq; cbn [bind].
  rewrite returns_bind, <- (returns_convertApis _
    (if truthy (read resource "info")
     then if has_length (documentation_of (read resource "info"))
          then set_prop (set_prop [] "title"
                           (lift (read (read resource "info") "title")))
                 "documentation" (VArr (documentation_of (read resource "info")))
          else set_prop [] "title" (lift (read (read resource "info") "title"))
     else [])).
  cbv zeta.
  destruct (convertApis _ _) as [o2 | e]; cbn [returns andb]; [| reflexivity].
  rewrite returns_bind, <- (returns_convertAuthorizations _ o2).
  destruct (convertAuthorizations _ _); reflexivity.
Qed.

Lemma assoc_in_keys {A} (k : string) (l : list (string * A)) :
  assoc k l <> None -> In k (map fst l).
Proof.
  induction l as [| [k' a] r IH]; simpl; [congruence |].
  destruct (k' =? k) eqn:E; [apply String.eqb_eq in E; auto | auto].
Qed.

(** * The document converter: the claims *)

(** C1, counterexample: [converter] throws a [TypeError] on a document with
    an OAuth 2.0 authorization that has no [grantTypes]: the source reads
    [authorization.grantTypes.implicit] without a guard. *)
Lemma converter_throws_without_grantTypes :
  converter oauth2_without_grantTypes = Throw TypeError.
Proof. vm_compute; reflexivity. Qed.

Example petstore_is_well_formed :
  well_formed petstore = true /\ converter petstore = Ok petstore_raml.
Proof. split; vm_compute; reflexivity. Qed.

(** C1, as amended: [converter] returns normally exactly on the well-formed
    documents (the document is not [undefined] or [null]; [apis], when set,
    is an array without [undefined] or [null] elements; no authorization
    entry is [undefined] or [null], an [oauth2] entry has [grantTypes], its
    [scopes] when set and non-empty are an array without [undefined] or
    [null] elements, its [authorization_code] grant when set has
    [tokenEndpoint] and [tokenRequestEndpoint], and the names put into text
    or used as keys convert to strings), and throws a [TypeError] on every
    other document.
    On a well-formed document, a section that is absent contributes nothing
    to the output. *)
Theorem converter_returns_iff_well_formed (resource : data) :
  (well_formed resource = true ->
   exists out,
     converter resource = Ok out /\
     (truthy (read resource "info") = false ->
      field out "title" = None /\ field out "documentation" = None) /\
     (truthy (read resource "apis") = false ->
      field out "resources" = None) /\
     (truthy (read resource "authorizations") = false ->
      field out "securitySchemes" = None) /\
     (truthy (read resource "apiVersion") = false ->
      field out "version" = None)) /\
  (well_formed resource = false -> converter resource = Throw TypeError).
Proof.
  rewrite <- returns_converter; split.
  - intros H; apply returns_ok in H; destruct H as (out & H).
    exists out; split; [exact H |].
    destruct (converter_fields _ _ H) as (Ht & Hd & Hr & Hs & Hv).
    split; [intros T; rewrite T in Ht, Hd; auto |].
    split; [intros T; rewrite T in Hr; exact Hr |].
    split; [intros T; rewrite T in Hs; exact Hs |].
    intros T; rewrite T in Hv; exact Hv.
  - apply returns_throw.
Qed.

Lemma converter_returns_iff_well_formed_witness :
  well_formed api_without_description = true /\
  exists out,
    converter api_without_description = Ok out /\
    (truthy (read api_without_description "info") = false ->
     field out "title" = None /\ field out "documentation" = None) /\
    (truthy (read api_without_description "apis") = false ->
     field out "resources" = None) /\
    (truthy (read api_without_description "authorizations") = false ->
     field out "securitySchemes" = None) /\
    (truthy (read api_without_description "apiVersion") = false ->
     field out "version" = None).
Proof.
  split; [reflexivity |].
  apply (proj1 (converter_returns_iff_well_formed api_without_description)).
  reflexivity.
Defined.

(** C3, counterexample: [converter] applied to [{}] does not return the
    document [{ title: undefined }]; the result has no [title] key. *)
Lemma converter_empty_has_no_title :
  converter empty_document <> Ok (VObj [ ("title", VUndefined) ]) /\
  forall out, converter empty_document = Ok out -> field out "title" = None.
Proof.
  split; [vm_compute; discriminate |].
  intros out H; vm_compute in H; injection H as <-; reflexivity.
Qed.

(** C3, as amended: [converter] applied to [{}] returns the empty document,
    with no key at all: [convertInfo] returns before the assignment of
    [title] when [info] is absent.  The document [{ title: undefined }] is
    what an [info] object without a title yields. *)
Theorem converter_empty_document :
  converter empty_document = Ok (VObj []) /\
  converter info_without_title = Ok (VObj [ ("title", VUndefined) ]).
Proof. split; vm_compute; reflexivity. Qed.

Lemma falsy_read (v : data) (k : string) :
  truthy v = false -> truthy (read v k) = false.
Proof.
  unfold read; destruct v as [| | [] | n | s | l | l | []]; simpl;
    try discriminate; try reflexivity.
  destruct s; simpl; [| discriminate].
  destruct (k =? "length"); reflexivity.
Qed.

Lemma has_length_map_filter {A B} (f : A -> B) (p : A -> bool) (l : list A) :
  has_length (map f (filter p l)) = existsb p l.
Proof.
  induction l as [| x r IH]; simpl; [reflexivity |].
  destruct (p x); [reflexivity | exact IH].
Qed.

(** C9: [documentation] is present in the converted document exactly when
    one of the five recognized info fields reads truthy; it then lists the
    truthy fields in the order of the table ([description],
    [termsOfServiceUrl], [contact], [license], [licenseUrl]), each as a
    [{ title, content }] pair with the display name of the table; two
    documents whose info objects agree on the five fields, whatever the
    order of their keys, get the same [documentation]. *)
Theorem documentation_iff_recognized_field (resource : data) (out : raml) :
  converter resource = Ok out ->
  let info := read resource "info" in
  (field out "documentation" <> None <->
   exists key,
     In key ["description"; "termsOfServiceUrl"; "contact"; "license";
             "licenseUrl"]
     /\ truthy (read info key) = true) /\
  (forall v,
     field out "documentation" = Some v ->
     v = VArr (map (fun kv => VObj [ ("title", VStr (snd kv));
                                     ("content", lift (read info (fst kv))) ])
                   (filter (fun kv => truthy (read info (fst kv)))
                           [ ("description", "Description");
                             ("termsOfServiceUrl", "Terms of Service URL");
                             ("contact", "Contact");
                             ("license", "License");
                             ("licenseUrl", "License URL") ]))) /\
  (forall resource' out',
     converter resource' = Ok out' ->
     (forall key,
        In key ["description"; "termsOfServiceUrl"; "contact"; "license";
                "licenseUrl"] ->
        read (read resource' "info") key = read info key) ->
     field out' "documentation" = field out "documentation").
Proof.
  intros H; cbv zeta.
  destruct (converter_fields _ _ H) as (_ & Hd & _).
  assert (E : forall i : data,
             truthy i && has_length (documentation_of i) =
             existsb (fun kv => truthy (read i (fst kv)))
                     DOCUMENTATION_NAME_MAP).
  { intros i; unfold documentation_of; rewrite has_length_map_filter.
    destruct (truthy i) eqn:T; [reflexivity |]; simpl.
    rewrite !(falsy_read _ _ T); reflexivity. }
  rewrite E in Hd; split; [| split].
  - rewrite Hd; split.
    + intros C.
      destruct (existsb _ DOCUMENTATION_NAME_MAP) eqn:X; [| congruence].
      apply existsb_exists in X; destruct X as ((k & t) & Hin & Hk).
      exists k; split; [| exact Hk].
      apply (in_map fst) in Hin; exact Hin.
    + intros (key & Hin & Hk).
      replace (existsb _ DOCUMENTATION_NAME_MAP) with true; [discriminate |].
      symmetry; simpl in Hin |- *.
      destruct Hin as [<- | [<- | [<- | [<- | [<- | []]]]]]; rewrite Hk;
        rewrite ?orb_true_r; reflexivity.
  - intros v Hv; rewrite Hv in Hd.
    destruct (existsb _ DOCUMENTATION_NAME_MAP); [| discriminate].
    injection Hd as ->; reflexivity.
  - intros resource' out' H' Hsame.
    destruct (converter_fields _ _ H') as (_ & Hd' & _).
    rewrite E in Hd'; rewrite Hd, Hd'.
    unfold documentation_of; simpl.
    rewrite !Hsame by (simpl; tauto).
    destruct (truthy (read (read resource "info") "description")),
             (truthy (read (read resource "info") "termsOfServiceUrl")),
             (truthy (read (read resource "info") "contact")),
             (truthy (read (read resource "info") "license")),
             (truthy (read (read resource "info") "licenseUrl")); simpl;
      rewrite ?Hsame by (simpl; tauto); reflexivity.
Qed.

Lemma documentation_iff_recognized_field_witness :
  converter petstore = Ok petstore_raml /\
  (field petstore_raml "documentation" <> None <->
   exists key,
     In key ["description"; "termsOfServiceUrl"; "contact"; "license";
             "licenseUrl"]
     /\ truthy (read (read petstore "info") key) = true).
Proof.
  assert (H : converter petstore = Ok petstore_raml)
    by (vm_compute; reflexivity).
  split; [exact H |].
  exact (proj1 (documentation_iff_recognized_field petstore petstore_raml H)).
Defined.

(** * The OAuth 2.0 scheme: the claims *)

(** What a successful [convertOAuth2] returned. *)
Lemma convertOAuth2_inv (a : data) (out : raml) :
  convertOAuth2 a = Ok out ->
  let grantTypes := read a "grantTypes" in
  let implicit := read grantTypes "implicit" in
  let authCode := read grantTypes "authorization_code" in
  exists sl il al,
    scope_lines a = Ok sl /\
    implicit_lines implicit = Ok il /\
    authCode_lines authCode = Ok al /\
    (truthy authCode = true ->
     nullish (read authCode "tokenEndpoint") = false /\
     nullish (read authCode "tokenRequestEndpoint") = false) /\
    field out "type" = Some (VStr "OAuth 2.0") /\
    field out "settings" = Some (VObj (settings_of a)) /\
    field out "description" =
      (let d := (scope_block sl ++ il ++ al)%list in
       if has_length d then Some (VStr (join (newline ++ newline) d))
       else None).
Proof.
  rewrite convertOAuth2_eq; cbv zeta; intros H.
  destruct (nullish a || nullish (read a "grantTypes")); [discriminate |].
  bind_inv H sl Hsl; bind_inv H il Hil.
  destruct (truthy (read (read a "grantTypes") "authorization_code")) eqn:T;
    cbn [andb] in H.
  - destruct (nullish (read _ "tokenEndpoint")) eqn:E1; [discriminate |].
    destruct (nullish (read _ "tokenRequestEndpoint")) eqn:E2;
      [discriminate |]; cbn [orb] in H.
    bind_inv H al Hal; injection H as <-.
    exists sl, il, al; repeat split; auto.
    unfold description_part; destruct (has_length _); reflexivity.
  - bind_inv H al Hal; injection H as <-.
    exists sl, il, al; repeat split; auto; try discriminate.
    unfold description_part; destruct (has_length _); reflexivity.
Qed.

Lemma grant_of_table (k : string) :
  grant_of k =
  if k =? "implicit" then VStr "token"
  else if k =? "authorization_code" then VStr "code"
  else match inherited k with
       | Some f => VNative f
       | None => VUndefined
       end.
Proof.
  unfold grant_of, table_get, GRANT_TYPE_MAP; cbn [assoc].
  rewrite (String.eqb_sym "implicit"), (String.eqb_sym "authorization_code").
  destruct (k =? "implicit"); [reflexivity |].
  destruct (k =? "authorization_code"); [reflexivity |].
  destruct (inherited k); reflexivity.
Qed.

(** [authorizationGrants] has one element per key of [grantTypes], in the
    order of the keys; [implicit] gives [token], [authorization_code] gives
    [code], and a key that neither the table nor [Object.prototype] defines
    gives [undefined]. *)
Lemma authorizationGrants_follow_grantTypes (a : data) (out : raml) :
  convertOAuth2 a = Ok out ->
  exists settings grants,
    field out "settings" = Some (VObj settings) /\
    assoc "authorizationGrants" settings = Some (VArr grants) /\
    List.length grants = List.length (entries (read a "grantTypes")) /\
    forall i k,
      nth_error (map fst (entries (read a "grantTypes"))) i = Some k ->
      nth_error grants i =
      Some (if k =? "implicit" then VStr "token"
            else if k =? "authorization_code" then VStr "code"
            else match inherited k with
                 | Some f => VNative f
                 | None => VUndefined
                 end).
Proof.
  intros H; apply convertOAuth2_inv in H; cbv zeta in H.
  destruct H as (sl & il & al & _ & _ & _ & _ & _ & Hs & _).
  destruct (settings_of_fields a) as (Hg & _).
  exists (settings_of a), (map grant_of (map fst (entries (read a "grantTypes")))).
  repeat split; auto.
  - rewrite !length_map; reflexivity.
  - intros i k Hk; rewrite nth_error_map, Hk; simpl.
    rewrite grant_of_table; reflexivity.
Qed.

(** C5, the failing input: the unknown grant type [password] contributes
    [undefined], but the unknown grant type [constructor] contributes the
    inherited [Object] function, not [undefined]. *)
Theorem constructor_grant_is_not_undefined :
  convertOAuth2 constructor_grant =
  Ok (VObj [ ("type", VStr "OAuth 2.0");
             ("settings",
              VObj [ ("authorizationGrants",
                      VArr [ VUndefined; VNative NConstructor ]) ]) ]).
Proof. vm_compute; reflexivity. Qed.

Lemma map_snd_indexed {A} (l : list A) : map snd (indexed l) = l.
Proof.
  unfold indexed; generalize 0; induction l as [| x r IH]; intros n; simpl;
    [| rewrite IH]; reflexivity.
Qed.

Lemma has_scopes_array (a : data) (l : list data) :
  read a "scopes" = VArr l -> l <> [] -> has_scopes a = true.
Proof.
  unfold has_scopes; intros -> Hl; destruct l as [| x r]; [congruence |].
  reflexivity.
Qed.

(** The scopes of a converted OAuth 2.0 authorization with a non-empty
    [scopes] array [l]. *)
Lemma scopes_of_array (a : data) (out : raml) (l : list data) :
  read a "scopes" = VArr l -> l <> [] ->
  convertOAuth2 a = Ok out ->
  let grantTypes := read a "grantTypes" in
  exists settings lines il al,
    field out "settings" = Some (VObj settings) /\
    assoc "scopes" settings =
      Some (VArr (map (fun scope => lift (read scope "scope")) l)) /\
    mapM scope_line (filter described l) = Ok lines /\
    implicit_lines (read grantTypes "implicit") = Ok il /\
    authCode_lines (read grantTypes "authorization_code") = Ok al /\
    field out "description" =
      (let d := (scope_block lines ++ il ++ al)%list in
       if has_length d then Some (VStr (join (newline ++ newline) d))
       else None).
Proof.
  intros Hl Hne H; pose proof (has_scopes_array _ _ Hl Hne) as Hs.
  apply convertOAuth2_inv in H; cbv zeta in H |- *.
  destruct H as (sl & il & al & Hsl & Hil & Hal & _ & _ & Hset & Hd).
  destruct (settings_of_fields a) as (_ & Hsc & _).
  exists (settings_of a), sl, il, al; repeat split; auto.
  - rewrite Hsc, Hs; unfold scope_names; rewrite Hl; cbn [entries].
    rewrite map_snd_indexed; reflexivity.
  - unfold scope_lines in Hsl; rewrite Hs, Hl in Hsl.
    match type of Hsl with
    | (if ?c then _ else _) = _ => destruct c; [exact Hsl | discriminate]
    end.
Qed.

Lemma append_empty_r (s : string) : (s ++ "")%string = s.
Proof. induction s as [| c s IH]; simpl; [| rewrite IH]; reflexivity. Qed.

Lemma concat_empty_cons (x : string) (l : list string) :
  String.concat "" (x :: l) = (x ++ String.concat "" l)%string.
Proof.
  destruct l as [| y r]; simpl; [rewrite append_empty_r |]; reflexivity.
Qed.

(** The text of a joined list, entry by entry: the first entry, then every
    further entry behind a separator. *)
Lemma concat_cons (sep x : string) (l : list string) :
  String.concat sep (x :: l) =
  (x ++ String.concat "" (map (fun entry => sep ++ entry) l))%string.
Proof.
  revert x; induction l as [| y r IH]; intros x.
  - simpl; rewrite append_empty_r; reflexivity.
  - change (String.concat sep (x :: y :: r))
      with (x ++ sep ++ String.concat sep (y :: r))%string.
    rewrite IH; cbn [map]; rewrite concat_empty_cons, append_assoc.
    reflexivity.
Qed.

(** The joined description, written out. *)
Lemma description_text (d : list string) :
  (if has_length d
   then Some (VStr (join (newline ++ newline) d) : raml)
   else None) =
  match d with
  | [] => None
  | first :: more =>
      Some (VStr (first
                  ++ String.concat ""
                       (map (fun entry => newline ++ newline ++ entry) more)))
  end.
Proof.
  destruct d as [| first more]; [reflexivity |].
  unfold join; rewrite concat_cons; reflexivity.
Qed.

(** C6, counterexample: for the empty [scopes] array the ordered list of the
    scope names is the empty list, but the settings of the converted
    authorization have no [scopes] key at all. *)
Lemma empty_scopes_set_no_settings_scopes :
  read empty_scopes_authorization "scopes" = VArr [] /\
  convertOAuth2 empty_scopes_authorization =
    Ok (VObj [ ("type", VStr "OAuth 2.0");
               ("settings",
                VObj [ ("authorizationGrants", VArr [ VStr "token" ]) ]) ]) /\
  forall out settings,
    convertOAuth2 empty_scopes_authorization = Ok out ->
    field out "settings" = Some (VObj settings) ->
    assoc "scopes" settings = None /\
    assoc "scopes" settings <> Some (VArr []).
Proof.
  split; [reflexivity |]; split; [vm_compute; reflexivity |].
  intros out settings H Hs; vm_compute in H; injection H as <-.
  vm_compute in Hs; injection Hs as <-.
  split; [reflexivity | discriminate].
Qed.

(** C6, as amended: for the scopes [[{scope:'read'}, {scope:'write',
    description:'Write access'}]], [settings.scopes] is [['read','write']]
    and the description is the text ["Available scopes: "], a blank line,
    the line ["* write: Write access"], and then the entries of the grants,
    each behind a blank line; there is no line for [read].  In general, for
    a [scopes] array, [settings.scopes] lists the [scope] of every element
    in order when the array is not empty, and is absent when it is empty;
    the scope block has one line ["* <name>: <description>"] per scope whose
    description is truthy, in order, joined by newlines, behind the entry
    ["Available scopes: "], and is absent when no scope is described. *)
Theorem scopes_conversion :
  (forall (a : data) (out : raml),
     read a "scopes" =
       VArr [ VObj [ ("scope", VStr "read") ];
              VObj [ ("scope", VStr "write");
                     ("description", VStr "Write access") ] ] ->
     convertOAuth2 a = Ok out ->
     exists settings il al,
       field out "settings" = Some (VObj settings) /\
       assoc "scopes" settings = Some (VArr [ VStr "read"; VStr "write" ]) /\
       implicit_lines (read (read a "grantTypes") "implicit") = Ok il /\
       authCode_lines (read (read a "grantTypes") "authorization_code")
         = Ok al /\
       field out "description" =
         Some (VStr ("Available scopes: " ++ newline ++ newline
                     ++ "* write: Write access"
                     ++ String.concat ""
                          (map (fun entry => newline ++ newline ++ entry)
                               (il ++ al))))) /\
  (forall (a : data) (out : raml) (l : list data),
     read a "scopes" = VArr l ->
     convertOAuth2 a = Ok out ->
     exists settings lines il al,
       field out "settings" = Some (VObj settings) /\
       assoc "scopes" settings =
         match l with
         | [] => None
         | _ :: _ =>
             Some (VArr (map (fun scope => lift (read scope "scope")) l))
         end /\
       mapM (fun scope =>
               n <- to_string (read scope "scope") ;;
               d <- to_string (read scope "description") ;;
               Ok ("* " ++ n ++ ": " ++ d))
            (filter (fun scope => truthy (read scope "description")) l)
         = Ok lines /\
       implicit_lines (read (read a "grantTypes") "implicit") = Ok il /\
       authCode_lines (read (read a "grantTypes") "authorization_code")
         = Ok al /\
       field out "description" =
         match (match lines with
                | [] => []
                | _ :: _ => ["Available scopes: "; String.concat newline lines]
                end ++ il ++ al)%list with
         | [] => None
         | first :: more =>
             Some (VStr (first
                         ++ String.concat ""
                              (map (fun entry => newline ++ newline ++ entry)
                                   more)))
         end).
Proof.
  assert (G : forall (a : data) (out : raml) (l : list data),
     read a "scopes" = VArr l ->
     convertOAuth2 a = Ok out ->
     exists settings lines il al,
       field out "settings" = Some (VObj settings) /\
       assoc "scopes" settings =
         match l with
         | [] => None
         | _ :: _ =>
             Some (VArr (map (fun scope => lift (read scope "scope")) l))
         end /\
       mapM scope_line (filter described l) = Ok lines /\
       implicit_lines (read (read a "grantTypes") "implicit") = Ok il /\
       authCode_lines (read (read a "grantTypes") "authorization_code")
         = Ok al /\
       field out "description" =
         match (match lines with
                | [] => []
                | _ :: _ => ["Available scopes: "; String.concat newline lines]
                end ++ il ++ al)%list with
         | [] => None
         | first :: more =>
             Some (VStr (first
                         ++ String.concat ""
                              (map (fun entry => newline ++ newline ++ entry)
                                   more)))
         end).
  { intros a out l Hl H.
    assert (B : forall lines : list string,
               scope_block lines =
               match lines with
               | [] => []
               | _ :: _ => ["Available scopes: "; String.concat newline lines]
               end) by (intros [| line lines]; reflexivity).
    destruct l as [| x r].
    - apply convertOAuth2_inv in H; cbv zeta in H.
      destruct H as (sl & il & al & Hsl & Hil & Hal & _ & _ & Hset & Hd).
      destruct (settings_of_fields a) as (_ & Hsc & _); cbv zeta in Hsc.
      assert (E : has_scopes a = false)
        by (unfold has_scopes; rewrite Hl; reflexivity).
      unfold scope_lines in Hsl; rewrite E in Hsl, Hsc; injection Hsl as <-.
      exists (settings_of a), [], il, al; repeat split; auto.
      rewrite Hd, description_text, B; reflexivity.
    - destruct (scopes_of_array _ _ _ Hl ltac:(discriminate) H)
        as (settings & lines & il & al & Hs & Hsc & Hm & Hil & Hal & Hd).
      exists settings, lines, il, al; repeat split; auto.
      rewrite Hd, description_text, B; reflexivity. }
  split; [| exact G].
  intros a out Hl H.
  destruct (G a out _ Hl H)
    as (settings & lines & il & al & Hs & Hsc & Hm & Hil & Hal & Hd).
  vm_compute in Hm; injection Hm as <-.
  exists settings, il, al; repeat split; auto.
  rewrite Hd.
  replace ([ "Available scopes: ";
             String.concat newline ["* write: Write access"] ]
           ++ il ++ al)%list
    with ("Available scopes: " :: "* write: Write access" :: (il ++ al)%list)
    by reflexivity.
  cbn [map]; rewrite concat_empty_cons; reflexivity.
Qed.

Lemma scopes_conversion_witness :
  read petstore_oauth2 "scopes" =
    VArr [ VObj [ ("scope", VStr "read") ];
           VObj [ ("scope", VStr "write");
                  ("description", VStr "Write access") ] ] /\
  convertOAuth2 petstore_oauth2 = Ok petstore_oauth2_raml /\
  exists settings,
    field petstore_oauth2_raml "settings" = Some (VObj settings) /\
    assoc "scopes" settings = Some (VArr [ VStr "read"; VStr "write" ]) /\
    field petstore_oauth2_raml "description" =
      Some (VStr ("Available scopes: " ++ newline ++ newline
                  ++ "* write: Write access")).
Proof.
  assert (Hl : read petstore_oauth2 "scopes" =
               VArr [ VObj [ ("scope", VStr "read") ];
                      VObj [ ("scope", VStr "write");
                             ("description", VStr "Write access") ] ])
    by (vm_compute; reflexivity).
  assert (H : convertOAuth2 petstore_oauth2 = Ok petstore_oauth2_raml)
    by (vm_compute; reflexivity).
  split; [exact Hl |]; split; [exact H |].
  destruct (proj1 scopes_conversion petstore_oauth2 petstore_oauth2_raml Hl H)
    as (settings & il & al & Hs & Hsc & Hil & Hal & Hd).
  exists settings; split; [exact Hs |]; split; [exact Hsc |].
  vm_compute in Hil; injection Hil as <-.
  vm_compute in Hal; injection Hal as <-.
  exact Hd.
Defined.

Lemma override_line_standard (name : data) (standard before after : string) :
  standard_or_unset name standard = true ->
  override_line name standard before after = Ok [].
Proof.
  unfold standard_or_unset, override_line; intros H.
  destruct (truthy name); simpl in *; [rewrite H |]; reflexivity.
Qed.

Lemma scope_lines_undescribed (a : data) (sl : list string) :
  (forall l, read a "scopes" = VArr l ->
             forallb (fun scope => negb (described scope)) l = true) ->
  scope_lines a = Ok sl -> sl = [].
Proof.
  unfold scope_lines; intros Hu H.
  destruct (has_scopes a); [| congruence].
  destruct (read a "scopes") as [| | b | n | s | l | l | []];
    try discriminate.
  specialize (Hu l eq_refl).
  replace (filter described l) with (@nil data) in H.
  - match type of H with
    | (if ?c then _ else _) = _ => destruct c; simpl in H; congruence
    end.
  - clear H; induction l as [| x r IH]; simpl in *; [reflexivity |].
    apply andb_true_iff in Hu; destruct Hu as (Hx & Hr).
    destruct (described x); [discriminate | auto].
Qed.

(** C7, counterexample: an authorization-code grant with [clientIdName]
    ['app_id'] and the other parameter names at their defaults, whose
    authorization also has a described scope: the description has three
    entries, not one line. *)
Lemma described_scope_adds_description_entries :
  convertOAuth2 app_id_with_described_scope = Ok app_id_with_described_scope_raml /\
  field app_id_with_described_scope_raml "description" =
    Some (VStr (join (newline ++ newline)
                  [ "Available scopes: ";
                    "* read: Read access";
                    "The code grant uses " ++ dquote ++ "app_id" ++ dquote
                    ++ " as the parameter for passing the client id." ])) /\
  field app_id_with_described_scope_raml "description" <>
    Some (VStr ("The code grant uses " ++ dquote ++ "app_id" ++ dquote
                ++ " as the parameter for passing the client id.")).
Proof.
  split; [vm_compute; reflexivity |].
  split; [vm_compute; reflexivity | vm_compute; discriminate].
Qed.

(** C7, as amended: for an OAuth 2.0 authorization with an
    authorization-code grant whose [tokenRequestEndpoint.clientIdName] is
    ['app_id'], the other parameter names being at their defaults (the client
    secret name unset or ['client_secret'], the code-grant token name unset
    or ['access_code'], the implicit-grant token name unset or
    ['access_token']), the grants contribute exactly one description entry,
    the line naming [app_id] as the client id parameter; the description is
    the scope block, if any scope carries a description, followed by that
    line, and it is that single line when no scope carries a description. *)
Theorem code_grant_client_id_line (a : data) (out : raml) :
  let grantTypes := read a "grantTypes" in
  let implicit := read grantTypes "implicit" in
  let authCode := read grantTypes "authorization_code" in
  let tokenEndpoint := read authCode "tokenEndpoint" in
  let tokenRequestEndpoint := read authCode "tokenRequestEndpoint" in
  let line := "The code grant uses " ++ dquote ++ "app_id" ++ dquote
              ++ " as the parameter for passing the client id." in
  convertOAuth2 a = Ok out ->
  truthy authCode = true ->
  read tokenRequestEndpoint "clientIdName" = VStr "app_id" ->
  standard_or_unset (read tokenRequestEndpoint "clientSecretName")
    "client_secret" = true ->
  standard_or_unset (read tokenEndpoint "tokenName") "access_code" = true ->
  standard_or_unset (read implicit "tokenName") "access_token" = true ->
  exists lines,
    scope_lines a = Ok lines /\
    field out "description" =
      Some (VStr (join (newline ++ newline)
                    ((if has_length lines
                      then ["Available scopes: "; join newline lines]
                      else []) ++ [line]))) /\
    ((forall l, read a "scopes" = VArr l ->
                forallb (fun scope => negb (truthy (read scope "description")))
                        l = true) ->
     field out "description" = Some (VStr line)).
Proof.
  cbv zeta; intros H Tc Hid Hsec Htok Himp.
  apply convertOAuth2_inv in H; cbv zeta in H.
  destruct H as (sl & il & al & Hsl & Hil & Hal & _ & _ & _ & Hd).
  unfold implicit_lines in Hil.
  rewrite (override_line_standard _ _ _ _ Himp) in Hil.
  assert (il = []) by (destruct (truthy _); congruence); subst il.
  unfold authCode_lines in Hal; rewrite Tc in Hal; cbv zeta in Hal.
  rewrite (override_line_standard _ _ _ _ Hsec),
          (override_line_standard _ _ _ _ Htok), Hid in Hal.
  vm_compute in Hal; injection Hal as <-.
  exists sl; split; [exact Hsl |]; split.
  - rewrite Hd; unfold scope_block; cbn [app].
    destruct (has_length sl) eqn:E; cbn [app has_length]; reflexivity.
  - intros Hsc; apply (scope_lines_undescribed _ _ Hsc) in Hsl; subst sl.
    rewrite Hd; reflexivity.
Qed.

Lemma code_grant_client_id_line_witness :
  convertOAuth2 app_id_authorization = Ok app_id_raml /\
  exists lines,
    scope_lines app_id_authorization = Ok lines /\
    field app_id_raml "description" =
      Some (VStr (join (newline ++ newline)
                    ((if has_length lines
                      then ["Available scopes: "; join newline lines]
                      else [])
                     ++ ["The code grant uses " ++ dquote ++ "app_id" ++ dquote
                         ++ " as the parameter for passing the client id."]))) /\
    ((forall l, read app_id_authorization "scopes" = VArr l ->
                forallb (fun scope => negb (truthy (read scope "description")))
                        l = true) ->
     field app_id_raml "description" =
     Some (VStr ("The code grant uses " ++ dquote ++ "app_id" ++ dquote
                 ++ " as the parameter for passing the client id."))).
Proof.
  assert (H : convertOAuth2 app_id_authorization = Ok app_id_raml)
    by (vm_compute; reflexivity).
  split; [exact H |].
  apply (code_grant_client_id_line app_id_authorization app_id_raml H);
    reflexivity.
Defined.

(** The defaults are not the same for the two grants: a code-grant token
    name [access_token] is reported, an implicit-grant token name
    [access_token] is not. *)
Example token_name_defaults_differ :
  convertOAuth2
    (VObj [ ("grantTypes",
             VObj [ ("implicit", VObj [ ("tokenName", VStr "access_token") ]);
                    ("authorization_code",
                     VObj [ ("tokenEndpoint",
                             VObj [ ("tokenName", VStr "access_token") ]);
                            ("tokenRequestEndpoint", VObj []) ]) ]) ]) =
  Ok (VObj [ ("type", VStr "OAuth 2.0");
             ("settings",
              VObj [ ("authorizationGrants", VArr [ VStr "token"; VStr "code" ]);
                     ("accessTokenUri", VUndefined);
                     ("authorizationUri", VUndefined) ]);
             ("description",
              VStr ("The code grant uses " ++ dquote ++ "access_token" ++ dquote
                    ++ " as the parameter for passing the authorization token.")) ]).
Proof. vm_compute; reflexivity. Qed.

(** C10: when [grantTypes] has an implicit grant with a [loginEndpoint.url]
    and an authorization-code grant, [settings.authorizationUri] is the
    [tokenRequestEndpoint.url] of the authorization-code grant: the implicit
    block stores [loginEndpoint.url] first, the authorization-code block runs
    after it and stores [tokenRequestEndpoint.url] under the same key. *)
Theorem authorization_code_overwrites_authorizationUri (a : data) (out : raml) :
  let grantTypes := read a "grantTypes" in
  let implicit := read grantTypes "implicit" in
  let authCode := read grantTypes "authorization_code" in
  let loginUrl := read (read implicit "loginEndpoint") "url" in
  let requestUrl := read (read authCode "tokenRequestEndpoint") "url" in
  convertOAuth2 a = Ok out ->
  truthy implicit = true ->
  truthy (read implicit "loginEndpoint") = true ->
  truthy loginUrl = true ->
  truthy authCode = true ->
  (exists settings,
     field out "settings" = Some (VObj settings) /\
     assoc "authorizationUri" settings = Some (lift requestUrl)) /\
  (forall st, exists st1 st2,
     oauth2_implicit implicit st = Ok st1 /\
     assoc "authorizationUri" (fst st1) = Some (lift loginUrl) /\
     oauth2_authCode authCode st1 = Ok st2 /\
     assoc "authorizationUri" (fst st2) = Some (lift requestUrl)).
Proof.
  cbv zeta; intros H Ti Tl Tu Tc.
  apply convertOAuth2_inv in H; cbv zeta in H.
  destruct H as (sl & il & al & _ & Hil & Hal & Hn & _ & Hs & _).
  destruct (Hn Tc) as (N1 & N2).
  destruct (settings_of_fields a) as (_ & _ & Hu & _); cbv zeta in Hu.
  rewrite Tc in Hu; split; [eauto |].
  intros (s, d).
  rewrite oauth2_implicit_eq, Hil; cbn [bind].
  unfold login_url; rewrite Ti, Tl, Tu; cbn [andb].
  eexists; eexists; split; [reflexivity |]; cbn [fst].
  split; [apply assoc_set_prop_same; discriminate |].
  rewrite oauth2_authCode_eq, Tc, N1, N2, Hal; cbn [orb bind].
  split; [reflexivity |]; cbn [fst].
  apply assoc_set_prop_same; discriminate.
Qed.

Lemma authorization_code_overwrites_authorizationUri_witness :
  convertOAuth2 petstore_oauth2 = Ok petstore_oauth2_raml /\
  exists settings,
    field petstore_oauth2_raml "settings" = Some (VObj settings) /\
    assoc "authorizationUri" settings =
    Some (VStr "http://petstore.swagger.wordnik.com/oauth/requestToken").
Proof.
  assert (H : convertOAuth2 petstore_oauth2 = Ok petstore_oauth2_raml)
    by (vm_compute; reflexivity).
  split; [exact H |].
  exact (proj1 (authorization_code_overwrites_authorizationUri
                  petstore_oauth2 petstore_oauth2_raml H
                  eq_refl eq_refl eq_refl eq_refl)).
Defined.

(** * The API key scheme and the authorization set: the claims *)

(** The API key of the specification's example. *)
Example header_key_scheme :
  convertApiKey header_key =
  Ok (VObj [ ("type", VStr "x-api-key");
             ("describedBy",
              VObj [ ("headers",
                      VObj [ ("X-Api-Key",
                              VObj [ ("type", VStr "string");
                                     ("description",
                                      VStr "Used to send a valid API key for authentication.") ]) ]) ]) ]).
Proof. vm_compute; reflexivity. Qed.

(** A [passAs] string that neither the table nor [Object.prototype] defines
    leaves [describedBy] empty. *)
Lemma unknown_passAs_leaves_describedBy_empty (a : data) (passAs : string) :
  nullish a = false ->
  read a "passAs" = VStr passAs ->
  passAs <> "header" -> passAs <> "query" ->
  inherited passAs = None ->
  convertApiKey a =
  Ok (VObj [ ("type", VStr "x-api-key"); ("describedBy", VObj []) ]).
Proof.
  intros Ha Hp H1 H2 Hi; rewrite convertApiKey_eq, Ha, Hp; cbn [to_string bind].
  unfold table_get, API_KEY_PASS_AS_MAP; cbn [assoc].
  apply not_eq_sym in H1, H2.
  apply String.eqb_neq in H1, H2; rewrite H1, H2, Hi; reflexivity.
Qed.

(** C8, the failing input: [passAs: 'constructor'] is neither ['header'] nor
    ['query'], yet [describedBy] is not empty: the table read returns the
    inherited [Object] function, which is truthy, and its source text becomes
    the key of a nested entry. *)
Theorem constructor_passAs_fills_describedBy :
  convertApiKey constructor_key =
  Ok (VObj [ ("type", VStr "x-api-key");
             ("describedBy",
              VObj [ ("function Object() { [native code] }",
                      VObj [ ("X-Api-Key",
                              VObj [ ("type", VStr "string");
                                     ("description",
                                      VStr "Used to send a valid API key for authentication.") ]) ]) ]) ]).
Proof. vm_compute; reflexivity. Qed.

(** An entry of unknown type, under a name other than [__proto__], becomes
    the named entry [{ name: undefined }]. *)
Lemma unknown_type_scheme_entry (authorizations : data) (key : string) :
  nullish authorizations = false ->
  nullish (read authorizations key) = false ->
  let type := read (read authorizations key) "type" in
  is_str type "oauth2" = false ->
  is_str type "apiKey" = false ->
  is_str type "basicAuth" = false ->
  key <> "__proto__" ->
  scheme_entry authorizations key = Ok (VObj [ (key, VUndefined) ]).
Proof.
  cbv zeta; intros Ha Hn H1 H2 H3 Hk.
  rewrite (scheme_entry_eq _ _ Ha), convertAuthorization_eq, Hn.
  cbv zeta; rewrite H1, H2, H3; cbn [bind].
  apply String.eqb_neq in Hk; unfold set_prop; simpl; rewrite Hk.
  reflexivity.
Qed.

(** [securitySchemes] has one entry per key of [authorizations], in the
    order of the keys. *)
Lemma securitySchemes_follow_authorizations (resource : data) (out : raml) :
  converter resource = Ok out ->
  let authorizations := read resource "authorizations" in
  truthy authorizations = true ->
  exists schemes,
    field out "securitySchemes" = Some (VArr schemes) /\
    List.length schemes = List.length (entries authorizations) /\
    forall i key,
      nth_error (map fst (entries authorizations)) i = Some key ->
      exists entry,
        nth_error schemes i = Some entry /\
        scheme_entry authorizations key = Ok entry.
Proof.
  cbv zeta; intros H T.
  destruct (converter_fields _ _ H) as (_ & _ & _ & Hs & _).
  rewrite T in Hs; destruct Hs as (schemes & Hm & Hf).
  exists schemes; repeat split; auto.
  - etransitivity; [exact (mapM_length _ _ _ Hm) | apply length_map].
  - intros i key Hi; exact (mapM_nth _ _ _ Hm i key Hi).
Qed.

Lemma entries_truthy {N} (v : value N) : entries v <> [] -> truthy v = true.
Proof.
  destruct v as [| | b | n | s | l | l | f]; try reflexivity;
    try (intros H; exfalso; apply H; reflexivity).
  destruct s; [intros H; exfalso; apply H; reflexivity | reflexivity].
Qed.

(** In a converted document, the entry of unknown type at position [i] of
    [authorizations], under a name other than [__proto__], is the named
    entry [{ name: undefined }] at position [i] of [securitySchemes]. *)
Lemma unknown_type_keeps_its_place (resource : data) (out : raml)
  (i : nat) (key : string) :
  converter resource = Ok out ->
  let authorizations := read resource "authorizations" in
  let type := read (read authorizations key) "type" in
  nth_error (map fst (entries authorizations)) i = Some key ->
  is_str type "oauth2" = false ->
  is_str type "apiKey" = false ->
  is_str type "basicAuth" = false ->
  key <> "__proto__" ->
  exists schemes,
    field out "securitySchemes" = Some (VArr schemes) /\
    List.length schemes = List.length (entries authorizations) /\
    nth_error schemes i = Some (VObj [ (key, VUndefined) ]).
Proof.
  cbv zeta; intros H Hi H1 H2 H3 Hk.
  assert (T : truthy (read resource "authorizations") = true).
  { apply entries_truthy; intros E; rewrite E in Hi.
    destruct i; discriminate. }
  destruct (securitySchemes_follow_authorizations _ _ H T)
    as (schemes & Hf & Hl & Hn).
  destruct (Hn i key Hi) as (entry & He & Hs).
  exists schemes; repeat split; auto.
  rewrite He; f_equal.
  pose proof (truthy_not_nullish _ T) as Ha.
  destruct (nullish (read (read resource "authorizations") key)) eqn:Hnull.
  - rewrite (scheme_entry_eq _ _ Ha), convertAuthorization_eq, Hnull in Hs.
    discriminate.
  - rewrite (unknown_type_scheme_entry _ _ Ha Hnull H1 H2 H3 Hk) in Hs.
    congruence.
Qed.

(** C4, the failing input: an entry of unknown type named [__proto__] yields
    an entry without any name, [{}]: the assignment [data[key] = undefined]
    reaches the inherited [__proto__] setter and creates no property. *)
Theorem proto_named_entry_loses_its_name :
  converter proto_named_authorization =
  Ok (VObj [ ("securitySchemes",
              VArr [ VObj [];
                     VObj [ ("basic",
                             VObj [ ("type", VStr "Basic Authentication") ]) ] ]) ]).
Proof. vm_compute; reflexivity. Qed.


(** * The document converter: every field of the output *)

Lemma is_str_inj {N} (v : value N) (s s' : string) :
  is_str v s = true -> is_str v s' = true -> s = s'.
Proof.
  destruct v as [| | b | n | t | l | l | f]; simpl; try discriminate.
  intros H H'; apply String.eqb_eq in H, H'; congruence.
Qed.

(** The keys a converted OAuth 2.0 authorization can have. *)
Lemma convertOAuth2_keys (a : data) (out : raml) :
  convertOAuth2 a = Ok out ->
  forall k, field out k <> None -> In k ["type"; "settings"; "description"].
Proof.
  rewrite convertOAuth2_eq; cbv zeta; intros H.
  destruct (nullish a || nullish (read a "grantTypes")); [discriminate |].
  bind_inv H sl Hsl; bind_inv H il Hil.
  assert (K : forall d k,
             field (VObj ([ ("type", VStr "OAuth 2.0");
                            ("settings", VObj (settings_of a)) ]
                          ++ description_part d) : raml) k <> None ->
             In k ["type"; "settings"; "description"]).
  { intros d k Hk; apply assoc_in_keys in Hk; revert Hk.
    unfold description_part; destruct (has_length d); simpl; tauto. }
  match type of H with
  | (if ?c then _ else _) = _ => destruct c; [discriminate |]
  end.
  bind_inv H al Hal; injection H as <-; apply K.
Qed.

(** The keys the settings of an OAuth 2.0 scheme can have. *)
Lemma settings_of_keys (a : data) (k : string) :
  In k (map fst (settings_of a)) ->
  In k ["authorizationGrants"; "scopes"; "authorizationUri"; "accessTokenUri"].
Proof.
  unfold settings_of; cbv zeta.
  destruct (has_scopes a);
    destruct (truthy (read (read a "grantTypes") "implicit")
              && truthy (login_url (read (read a "grantTypes") "implicit")));
    destruct (truthy (read (read a "grantTypes") "authorization_code"));
    simpl; tauto.
Qed.

(** C2, counterexample: an api without a description yields a resource entry
    whose [description] key is present and holds [undefined], and an info
    object without a title yields a [title] key that holds [undefined]. *)
Lemma converter_keeps_undefined_placeholders :
  field (VObj [ ("path", VStr "/pets") ] : data) "description" = None /\
  converter api_without_description =
    Ok (VObj [ ("resources",
                VArr [ VObj [ ("relativeUri", VStr "/pets");
                              ("description", VUndefined) ] ]) ]) /\
  field (VObj [] : data) "title" = None /\
  converter info_without_title = Ok (VObj [ ("title", VUndefined) ]).
Proof. repeat split; vm_compute; reflexivity. Qed.

(** The same inside the security schemes: a code grant without urls yields
    [accessTokenUri] and [authorizationUri] holding [undefined], a
    [grantTypes] without keys the empty [authorizationGrants], an API key
    without [passAs] the empty [describedBy], and an authorization of an
    unknown type an entry holding [undefined]. *)
Example schemes_keep_placeholders :
  convertAuthorization code_grant_without_urls =
    Ok (VObj [ ("type", VStr "OAuth 2.0");
               ("settings",
                VObj [ ("authorizationGrants", VArr [ VStr "code" ]);
                       ("accessTokenUri", VUndefined);
                       ("authorizationUri", VUndefined) ]) ]) /\
  convertAuthorization
    (VObj [ ("type", VStr "oauth2"); ("grantTypes", VObj []) ]) =
    Ok (VObj [ ("type", VStr "OAuth 2.0");
               ("settings", VObj [ ("authorizationGrants", VArr []) ]) ]) /\
  convertAuthorization key_without_passAs =
    Ok (VObj [ ("type", VStr "x-api-key"); ("describedBy", VObj []) ]) /\
  converter (VObj [ ("authorizations",
                     VObj [ ("digest", VObj [ ("type", VStr "digest") ]) ]) ]) =
    Ok (VObj [ ("securitySchemes",
                VArr [ VObj [ ("digest", VUndefined) ] ]) ]).
Proof. repeat split; vm_compute; reflexivity. Qed.

(** C2, as amended: every field of a converted document, with the source it
    comes from.

    The document has no key besides [title], [documentation], [resources],
    [securitySchemes] and [version]; [documentation] is present only with at
    least one truthy recognized info field, [resources] only with [apis],
    [securitySchemes] only with [authorizations], [version] only with a
    truthy [apiVersion].  [title] is assigned whenever [info] is present, to
    [info.title]; every resource entry has the keys [relativeUri] and
    [description], assigned [api.path] and [api.description]; every
    [securitySchemes] entry is named by its key (the key [__proto__] names
    nothing) and holds the conversion of the authorization under that key.

    The conversion of an authorization is [undefined] for a type other than
    the three known ones and [{ type }] for [basicAuth].  For [apiKey] it
    has [type] and [describedBy], which is empty unless [passAs] selects a
    location, and then holds under that location one parameter named by
    [keyname] converted to a string.  For [oauth2] it has no key besides
    [type], [settings] and [description]; the settings have no key besides
    [authorizationGrants] (always there, one element per key of
    [grantTypes]), [scopes] (only for a non-empty [scopes], the [scope] of
    every element), [accessTokenUri] (exactly with a code grant, assigned
    [tokenEndpoint.url]) and [authorizationUri] (with a code grant, assigned
    [tokenRequestEndpoint.url]; otherwise only with a truthy
    [loginEndpoint.url] of the implicit grant); [description] is present
    only with at least one entry. *)
Theorem converter_fields_come_from_source :
  (forall (resource : data) (out : raml),
     converter resource = Ok out ->
     let info := read resource "info" in
     let apis := read resource "apis" in
     let authorizations := read resource "authorizations" in
     let apiVersion := read resource "apiVersion" in
     (forall k, field out k <> None ->
                In k ["title"; "documentation"; "resources";
                      "securitySchemes"; "version"]) /\
     field out "title" =
       (if truthy info then Some (lift (read info "title")) else None) /\
     (forall v, field out "documentation" = Some v ->
                truthy info = true /\
                v = VArr (documentation_of info) /\
                documentation_of info <> []) /\
     (forall v, field out "resources" = Some v ->
                truthy apis = true /\
                exists l,
                  apis = VArr l /\
                  v = VArr (map (fun api =>
                                   VObj [ ("relativeUri",
                                           lift (read api "path"));
                                          ("description",
                                           lift (read api "description")) ])
                                l)) /\
     (forall v, field out "securitySchemes" = Some v ->
                truthy authorizations = true /\
                exists schemes,
                  v = VArr schemes /\
                  List.length schemes = List.length (entries authorizations) /\
                  forall i key,
                    nth_error (map fst (entries authorizations)) i
                      = Some key ->
                    exists scheme,
                      convertAuthorization (read authorizations key)
                        = Ok scheme /\
                      nth_error schemes i =
                        Some (VObj (if key =? "__proto__" then []
                                    else [ (key, scheme) ]))) /\
     (forall v, field out "version" = Some v ->
                truthy apiVersion = true /\ v = lift apiVersion)) /\
  (forall (a : data) (scheme : raml),
     convertAuthorization a = Ok scheme ->
     let type := read a "type" in
     let grantTypes := read a "grantTypes" in
     let implicit := read grantTypes "implicit" in
     let authCode := read grantTypes "authorization_code" in
     (is_str type "oauth2" = false ->
      is_str type "apiKey" = false ->
      is_str type "basicAuth" = false ->
      scheme = VUndefined) /\
     (is_str type "basicAuth" = true ->
      scheme = VObj [ ("type", VStr "Basic Authentication") ]) /\
     (is_str type "apiKey" = true ->
      exists passAs,
        to_string (read a "passAs") = Ok passAs /\
        let location := table_get API_KEY_PASS_AS_MAP passAs in
        if looked_up_truthy location
        then exists name,
               to_string (read a "keyname") = Ok name /\
               scheme =
                 VObj [ ("type", VStr "x-api-key");
                        ("describedBy",
                         VObj (set_prop [] (looked_up_key location)
                                 (VObj (set_prop [] name
                                          (VObj [ ("type", VStr "string");
                                                  ("description",
                                                   VStr "Used to send a valid API key for authentication.") ]))))) ]
        else scheme = VObj [ ("type", VStr "x-api-key");
                             ("describedBy", VObj []) ]) /\
     (is_str type "oauth2" = true ->
      (forall k, field scheme k <> None ->
                 In k ["type"; "settings"; "description"]) /\
      field scheme "type" = Some (VStr "OAuth 2.0") /\
      (exists settings,
         field scheme "settings" = Some (VObj settings) /\
         (forall k, In k (map fst settings) ->
                    In k [ "authorizationGrants"; "scopes";
                           "authorizationUri"; "accessTokenUri" ]) /\
         assoc "authorizationGrants" settings =
           Some (VArr (map (fun grantType =>
                              looked_up_value
                                (table_get GRANT_TYPE_MAP grantType))
                           (map fst (entries grantTypes)))) /\
         assoc "scopes" settings =
           (if has_scopes a
            then Some (VArr (map (fun scope => lift (read scope "scope"))
                                 (map snd (entries (read a "scopes")))))
            else None) /\
         assoc "accessTokenUri" settings =
           (if truthy authCode
            then Some (lift (read (read authCode "tokenEndpoint") "url"))
            else None) /\
         assoc "authorizationUri" settings =
           (if truthy authCode
            then Some (lift (read (read authCode "tokenRequestEndpoint")
                               "url"))
            else if truthy implicit && truthy (login_url implicit)
                 then Some (lift (login_url implicit))
                 else None)) /\
      (exists sl il al,
         scope_lines a = Ok sl /\
         implicit_lines implicit = Ok il /\
         authCode_lines authCode = Ok al /\
         field scheme "description" =
           match (scope_block sl ++ il ++ al)%list with
           | [] => None
           | first :: more =>
               Some (VStr (first
                           ++ String.concat ""
                                (map (fun entry =>
                                        newline ++ newline ++ entry)
                                     more)))
           end))).
Proof.
  split.
  - intros resource out H; cbv zeta.
    destruct (converter_fields _ _ H) as (Ht & Hd & Hr & Hs & Hv).
    split; [| split; [exact Ht |]].
    + apply converter_inv in H.
      destruct H as (_ & o1 & o2 & o3 & H1 & H2 & H3 & ->).
      rewrite convertInfo_eq in H1; injection H1 as <-.
      apply convertApis_inv in H2; apply convertAuthorizations_inv in H3.
      clear Ht Hd Hr Hs Hv; intros k Hk; apply assoc_in_keys in Hk; revert Hk.
      destruct H2 as [(T2 & ->) | (T2 & l & E2 & _ & ->)];
        destruct H3 as [(T3 & ->) | (T3 & schemes & Hs' & ->)];
        destruct (truthy (read resource "info"));
        destruct (has_length (documentation_of (read resource "info")));
        destruct (truthy (read resource "apiVersion"));
        cbn -[documentation_of resource_of scheme_entry entries In];
        simpl; tauto.
    + split; [| split; [| split]]; intros v Hv'.
      * rewrite Hv' in Hd.
        destruct (truthy (read resource "info")); [| discriminate].
        cbn [andb] in Hd.
        destruct (has_length (documentation_of _)) eqn:L; [| discriminate].
        injection Hd as ->; repeat split.
        intros E; rewrite E in L; discriminate.
      * rewrite Hv' in Hr.
        destruct (truthy (read resource "apis")); [| discriminate].
        destruct Hr as (l & E & Hf); injection Hf as ->.
        split; [reflexivity |]; exists l; split; [exact E | reflexivity].
      * rewrite Hv' in Hs.
        destruct (truthy (read resource "authorizations")) eqn:T;
          [| discriminate].
        destruct Hs as (schemes & Hm & Hf); injection Hf as ->.
        split; [reflexivity |]; exists schemes; split; [reflexivity |].
        split;
          [etransitivity; [exact (mapM_length _ _ _ Hm) | apply length_map] |].
        intros i key Hi.
        destruct (mapM_nth _ _ _ Hm i key Hi) as (entry & He & Hc).
        rewrite (scheme_entry_eq _ _ (truthy_not_nullish _ T)) in Hc.
        bind_inv Hc scheme Hc'; injection Hc as <-.
        exists scheme; split; [exact Hc' |].
        refine (eq_trans He _); unfold set_prop; simpl.
        destruct (key =? "__proto__"); reflexivity.
      * rewrite Hv' in Hv.
        destruct (truthy (read resource "apiVersion")); [| discriminate].
        injection Hv as ->; split; reflexivity.
  - intros a scheme H; cbv zeta.
    rewrite convertAuthorization_eq in H.
    destruct (nullish a) eqn:N; [discriminate |]; cbv zeta in H.
    assert (X : forall s s',
               is_str (read a "type") s = true ->
               is_str (read a "type") s' = true -> s = s')
      by (intros s s'; apply is_str_inj).
    destruct (is_str (read a "type") "oauth2") eqn:T1;
      [| destruct (is_str (read a "type") "apiKey") eqn:T2;
         [| destruct (is_str (read a "type") "basicAuth") eqn:T3]].
    + split; [discriminate |].
      split; [intros T; discriminate (X _ _ T1 T) |].
      split; [intros T; discriminate (X _ _ T1 T) |]; intros _.
      pose proof (convertOAuth2_keys _ _ H) as K.
      apply convertOAuth2_inv in H; cbv zeta in H.
      destruct H as (sl & il & al & Hsl & Hil & Hal & _ & Hty & Hset & Hd).
      destruct (settings_of_fields a) as (Hg & Hsc & Hu & Hac);
        cbv zeta in Hg, Hsc, Hu, Hac.
      split; [exact K |]; split; [exact Hty |]; split.
      * exists (settings_of a); split; [exact Hset |].
        split; [intros k; apply settings_of_keys |].
        split; [exact Hg |]; split; [exact Hsc |].
        split; [exact Hac | exact Hu].
      * exists sl, il, al; repeat split; auto.
        rewrite Hd; apply description_text.
    + split; [discriminate |].
      split; [intros T; discriminate (X _ _ T2 T) |].
      split; [intros _ | discriminate].
      rewrite convertApiKey_eq, N in H.
      bind_inv H passAs Hp; exists passAs; split; [exact Hp |].
      cbv zeta in H |- *.
      destruct (looked_up_truthy _); [| congruence].
      bind_inv H name Hn; exists name; split; [exact Hn |].
      injection H as <-; reflexivity.
    + split; [discriminate |].
      split; [intros _; congruence |].
      split; discriminate.
    + split; [intros _ _ _; congruence |].
      repeat split; discriminate.
Qed.

Lemma converter_fields_come_from_source_witness :
  converter petstore = Ok petstore_raml /\
  field petstore_raml "title" = Some (VStr "Swagger Sample App") /\
  (forall v, field petstore_raml "version" = Some v ->
             truthy (read petstore "apiVersion") = true /\
             v = lift (read petstore "apiVersion")) /\
  convertAuthorization code_grant_without_urls =
    Ok (VObj [ ("type", VStr "OAuth 2.0");
               ("settings",
                VObj [ ("authorizationGrants", VArr [ VStr "code" ]);
                       ("accessTokenUri", VUndefined);
                       ("authorizationUri", VUndefined) ]) ]) /\
  exists settings,
    field (VObj [ ("type", VStr "OAuth 2.0");
                  ("settings",
                   VObj [ ("authorizationGrants", VArr [ VStr "code" ]);
                          ("accessTokenUri", VUndefined);
                          ("authorizationUri", VUndefined) ]) ] : raml)
      "settings" = Some (VObj settings) /\
    assoc "accessTokenUri" settings = Some VUndefined /\
    assoc "authorizationUri" settings = Some VUndefined.
Proof.
  assert (H : converter petstore = Ok petstore_raml)
    by (vm_compute; reflexivity).
  assert (H' : convertAuthorization code_grant_without_urls =
               Ok (VObj [ ("type", VStr "OAuth 2.0");
                          ("settings",
                           VObj [ ("authorizationGrants",
                                   VArr [ VStr "code" ]);
                                  ("accessTokenUri", VUndefined);
                                  ("authorizationUri", VUndefined) ]) ]))
    by (vm_compute; reflexivity).
  split; [exact H |].
  destruct (proj1 converter_fields_come_from_source petstore petstore_raml H)
    as (_ & Ht & _ & _ & _ & Hv).
  split; [exact Ht |]; split; [exact Hv |]; split; [exact H' |].
  destruct (proj2 converter_fields_come_from_source _ _ H')
    as (_ & _ & _ & Ho).
  destruct (Ho eq_refl)
    as (_ & _ & (settings & Hs & _ & _ & _ & Hac & Hu) & _).
  exists settings; split; [exact Hs |]; split; [exact Hac | exact Hu].
Defined.

(** * Further properties of the document converter *)

Lemma read_throws (v : data) (k : string) :
  nullish v = true -> read v k = VUndefined.
Proof. intros H; unfold read; rewrite (get_throw _ _ H); reflexivity. Qed.

(** X1: the result of [converter], value or error, depends only on the
    properties [info], [apis], [authorizations] and [apiVersion] of the
    document: its other properties and the order of its keys have no
    effect. *)
Theorem converter_reads_four_sections (r1 r2 : data) :
  nullish r1 = false ->
  nullish r2 = false ->
  (forall k, In k ["info"; "apis"; "authorizations"; "apiVersion"] ->
             read r1 k = read r2 k) ->
  converter r1 = converter r2.
Proof.
  intros N1 N2 H; unfold converter.
  rewrite !(get_ok _ _ N1), !(get_ok _ _ N2).
  rewrite (H "info"), (H "apis"), (H "authorizations"), (H "apiVersion")
    by (simpl; tauto).
  reflexivity.
Qed.

Lemma converter_reads_four_sections_witness :
  converter petstore = converter petstore_with_more_keys.
Proof.
  apply converter_reads_four_sections; [reflexivity | reflexivity |].
  intros k [<- | [<- | [<- | [<- | []]]]]; reflexivity.
Defined.

(** X2: the keys of the converted document come in the order [title],
    [documentation], [resources], [securitySchemes], [version], each at most
    once, whatever the order of the keys of the source. *)
Theorem converter_key_order (resource : data) (out : raml) :
  converter resource = Ok out ->
  exists props,
    out = VObj props /\
    map fst props =
    filter (fun k => has_own k props)
           ["title"; "documentation"; "resources"; "securitySchemes";
            "version"].
Proof.
  intros H; apply converter_inv in H.
  destruct H as (_ & o1 & o2 & o3 & H1 & H2 & H3 & ->).
  rewrite convertInfo_eq in H1; injection H1 as <-.
  apply convertApis_inv in H2; apply convertAuthorizations_inv in H3.
  eexists; split; [reflexivity |].
  destruct H2 as [(T2 & ->) | (T2 & l & E2 & _ & ->)];
    destruct H3 as [(T3 & ->) | (T3 & schemes & Hs' & ->)];
    destruct (truthy (read resource "info"));
    destruct (has_length (documentation_of (read resource "info")));
    destruct (truthy (read resource "apiVersion"));
    reflexivity.
Qed.

Lemma converter_key_order_witness :
  converter petstore = Ok petstore_raml /\
  exists props,
    petstore_raml = VObj props /\
    map fst props =
    filter (fun k => has_own k props)
           ["title"; "documentation"; "resources"; "securitySchemes";
            "version"].
Proof.
  assert (H : converter petstore = Ok petstore_raml)
    by (vm_compute; reflexivity).
  split; [exact H |].
  exact (converter_key_order petstore petstore_raml H).
Defined.

(** X3: [securitySchemes] has one entry per key of [authorizations], in the
    order of the keys, and the entry of a key [k] other than [__proto__] is
    the single-key object [{ k: scheme }], where [scheme] is the conversion
    of [authorizations[k]] alone. *)
Theorem securitySchemes_one_entry_per_key (resource : data) (out : raml) :
  converter resource = Ok out ->
  let authorizations := read resource "authorizations" in
  truthy authorizations = true ->
  exists schemes,
    field out "securitySchemes" = Some (VArr schemes) /\
    List.length schemes = List.length (entries authorizations) /\
    forall i key,
      nth_error (map fst (entries authorizations)) i = Some key ->
      key <> "__proto__" ->
      exists scheme,
        convertAuthorization (read authorizations key) = Ok scheme /\
        nth_error schemes i = Some (VObj [ (key, scheme) ]).
Proof.
  cbv zeta; intros H T.
  destruct (securitySchemes_follow_authorizations _ _ H T)
    as (schemes & Hf & Hl & Hn).
  exists schemes; repeat split; auto.
  intros i key Hi Hk; destruct (Hn i key Hi) as (entry & He & Hs).
  rewrite (scheme_entry_eq _ _ (truthy_not_nullish _ T)) in Hs.
  bind_inv Hs scheme Hc; injection Hs as <-.
  exists scheme; split; [exact Hc |].
  rewrite He; apply String.eqb_neq in Hk.
  unfold set_prop; simpl; rewrite Hk; reflexivity.
Qed.

Lemma securitySchemes_one_entry_per_key_witness :
  converter petstore = Ok petstore_raml /\
  exists schemes,
    field petstore_raml "securitySchemes" = Some (VArr schemes) /\
    List.length schemes =
      List.length (entries (read petstore "authorizations")) /\
    forall i key,
      nth_error (map fst (entries (read petstore "authorizations"))) i
        = Some key ->
      key <> "__proto__" ->
      exists scheme,
        convertAuthorization (read (read petstore "authorizations") key)
          = Ok scheme /\
        nth_error schemes i = Some (VObj [ (key, scheme) ]).
Proof.
  assert (H : converter petstore = Ok petstore_raml)
    by (vm_compute; reflexivity).
  split; [exact H |].
  exact (securitySchemes_one_entry_per_key petstore petstore_raml H eq_refl).
Defined.

(** X4: an authorization whose [type] is ['basicAuth'] converts to exactly
    [{ type: 'Basic Authentication' }]: nothing else in it is read, so no
    other property changes the scheme or makes the conversion throw. *)
Theorem basicAuth_scheme (a : data) :
  read a "type" = VStr "basicAuth" ->
  convertAuthorization a = Ok (VObj [ ("type", VStr "Basic Authentication") ]).
Proof.
  intros H; rewrite convertAuthorization_eq.
  destruct (nullish a) eqn:N; [rewrite (read_throws _ _ N) in H; discriminate |].
  cbv zeta; rewrite H; reflexivity.
Qed.

Lemma basicAuth_scheme_witness :
  convertAuthorization basic_with_more_keys =
  Ok (VObj [ ("type", VStr "Basic Authentication") ]).
Proof. apply basicAuth_scheme; reflexivity. Defined.

(** X10: [convertInfo] never throws, whatever [info] is (an object, a
    string, a number, an array, [null]), and it changes no key of
    [ramlObject] other than [title] and [documentation]; a falsy [info]
    leaves [ramlObject] as it is. *)
Theorem convertInfo_never_throws (info : data) (ramlObject : object native) :
  exists o,
    convertInfo info ramlObject = Ok o /\
    (forall k, k <> "title" -> k <> "documentation" ->
               assoc k o = assoc k ramlObject) /\
    (truthy info = false -> o = ramlObject).
Proof.
  rewrite convertInfo_eq; eexists; split; [reflexivity |]; split.
  - intros k K1 K2; destruct (truthy info); [| reflexivity]; cbv zeta.
    destruct (has_length _);
      rewrite ?(assoc_set_prop_other _ k "documentation") by exact K2;
      apply assoc_set_prop_other; exact K1.
  - intros T; rewrite T; reflexivity.
Qed.

Lemma convertInfo_never_throws_witness :
  exists o,
    convertInfo VNull [ ("version", VStr "1.0.0") ] = Ok o /\
    o = [ ("version", VStr "1.0.0") ].
Proof.
  destruct (convertInfo_never_throws VNull [ ("version", VStr "1.0.0") ])
    as (o & H & _ & F).
  exists o; split; [exact H | apply F; reflexivity].
Defined.

(** X11: an empty [apis] array and an [authorizations] object without keys
    do not make [converter] throw, and they yield the keys [resources] and
    [securitySchemes] with empty lists: these two keys are present as soon
    as their section is, unlike [documentation]. *)
Theorem empty_sections_yield_empty_lists (resource : data) :
  read resource "apis" = VArr [] ->
  read resource "authorizations" = VObj [] ->
  exists out,
    converter resource = Ok out /\
    field out "resources" = Some (VArr []) /\
    field out "securitySchemes" = Some (VArr []).
Proof.
  intros Ha Hs.
  assert (N : nullish resource = false).
  { destruct (nullish resource) eqn:N; [| reflexivity].
    rewrite (read_throws _ _ N) in Ha; discriminate. }
  assert (W : well_formed resource = true)
    by (unfold well_formed; rewrite N, Ha, Hs; reflexivity).
  rewrite <- returns_converter in W; apply returns_ok in W.
  destruct W as (out & H); exists out; split; [exact H |].
  destruct (converter_fields _ _ H) as (_ & _ & Hr & Hsc & _).
  rewrite Ha in Hr; rewrite Hs in Hsc; cbn [truthy] in Hr, Hsc.
  destruct Hr as (l & E & Hr); injection E as <-.
  destruct Hsc as (schemes & Hm & Hsc); cbn in Hm; injection Hm as <-.
  auto.
Qed.

Lemma empty_sections_yield_empty_lists_witness :
  exists out,
    converter empty_sections = Ok out /\
    field out "resources" = Some (VArr []) /\
    field out "securitySchemes" = Some (VArr []).
Proof. apply empty_sections_yield_empty_lists; reflexivity. Defined.

(** * Further properties of the scheme converters *)

Lemma read_not_nullish (v : data) (k : string) (x : data) :
  read v k = x -> x <> VUndefined -> nullish v = false.
Proof.
  intros H Hx; destruct (nullish v) eqn:N; [| reflexivity].
  rewrite (read_throws _ _ N) in H; congruence.
Qed.

Lemma not_prototype_name (k : string) :
  ~ In k prototype_names -> inherited k = None.
Proof.
  unfold prototype_names, inherited; intros H.
  repeat match goal with
         | |- context [k =? ?n] =>
             let E := fresh "E" in
             destruct (k =? n) eqn:E;
             [apply String.eqb_eq in E; subst k; exfalso; apply H; simpl; tauto |]
         end.
  reflexivity.
Qed.

(** X5: an API key passed as ['header'] is described under
    [describedBy.headers], one passed as ['query'] under
    [describedBy.queryParameters]; in both cases as one string parameter
    named [keyname] (a name other than [__proto__]) with the fixed
    description. *)
Theorem apiKey_location (a : data) (passAs keyname : string) :
  read a "passAs" = VStr passAs ->
  read a "keyname" = VStr keyname ->
  keyname <> "__proto__" ->
  passAs = "header" \/ passAs = "query" ->
  convertApiKey a =
  Ok (VObj [ ("type", VStr "x-api-key");
             ("describedBy",
              VObj [ (if passAs =? "header" then "headers"
                      else "queryParameters",
                      VObj [ (keyname,
                              VObj [ ("type", VStr "string");
                                     ("description",
                                      VStr "Used to send a valid API key for authentication.") ]) ]) ]) ]).
Proof.
  intros Hp Hk Hn Hpa.
  assert (N : nullish a = false)
    by (apply (read_not_nullish _ _ _ Hp); discriminate).
  rewrite convertApiKey_eq, N, Hp, Hk; cbn [to_string bind].
  apply String.eqb_neq in Hn.
  destruct Hpa as [-> | ->]; cbv zeta; unfold set_prop; simpl; rewrite Hn;
    reflexivity.
Qed.

Lemma apiKey_location_witness :
  convertApiKey query_key =
  Ok (VObj [ ("type", VStr "x-api-key");
             ("describedBy",
              VObj [ ("queryParameters",
                      VObj [ ("api_key",
                              VObj [ ("type", VStr "string");
                                     ("description",
                                      VStr "Used to send a valid API key for authentication.") ]) ]) ]) ]).
Proof.
  apply (apiKey_location query_key "query" "api_key");
    [reflexivity | reflexivity | discriminate | right; reflexivity].
Defined.

(** X6: for a [passAs] that is absent, or a string that is neither
    ['header'] nor ['query'] nor the name of a property of
    [Object.prototype], [describedBy] is the empty object, and [keyname] is
    not looked at: whatever it is, the conversion returns. *)
Theorem apiKey_unknown_passAs (a : data) :
  nullish a = false ->
  read a "passAs" = VUndefined \/
  (exists passAs,
     read a "passAs" = VStr passAs /\
     ~ In passAs ("header" :: "query" :: prototype_names)) ->
  convertApiKey a =
  Ok (VObj [ ("type", VStr "x-api-key"); ("describedBy", VObj []) ]).
Proof.
  intros N [Hp | (passAs & Hp & Hn)]; rewrite convertApiKey_eq, N, Hp;
    cbn [to_string bind]; [reflexivity |].
  unfold table_get, API_KEY_PASS_AS_MAP; cbn [assoc].
  destruct ("header" =? passAs) eqn:E1;
    [apply String.eqb_eq in E1; exfalso; apply Hn; simpl; auto |].
  destruct ("query" =? passAs) eqn:E2;
    [apply String.eqb_eq in E2; exfalso; apply Hn; simpl; auto |].
  rewrite not_prototype_name; [reflexivity |].
  intros C; apply Hn; simpl; auto.
Qed.

Lemma apiKey_unknown_passAs_witness :
  convertApiKey cookie_key =
  Ok (VObj [ ("type", VStr "x-api-key"); ("describedBy", VObj []) ]).
Proof.
  apply apiKey_unknown_passAs; [reflexivity |].
  right; exists "cookie"; split; [reflexivity |].
  unfold prototype_names; simpl.
  intros C; repeat (destruct C as [C | C]; [discriminate C |]); exact C.
Defined.

(** X7: [settings.authorizationGrants] has one element per key of
    [grantTypes], in the order of the keys, whatever the value under the
    key: ['token'] for [implicit], ['code'] for [authorization_code], and
    [undefined] for every other key that is not the name of a property of
    [Object.prototype]. *)
Theorem authorizationGrants_one_per_key (a : data) (out : raml) :
  convertOAuth2 a = Ok out ->
  exists settings grants,
    field out "settings" = Some (VObj settings) /\
    assoc "authorizationGrants" settings = Some (VArr grants) /\
    List.length grants = List.length (entries (read a "grantTypes")) /\
    forall i k,
      nth_error (map fst (entries (read a "grantTypes"))) i = Some k ->
      (k = "implicit" -> nth_error grants i = Some (VStr "token")) /\
      (k = "authorization_code" -> nth_error grants i = Some (VStr "code")) /\
      (~ In k ("implicit" :: "authorization_code" :: prototype_names) ->
       nth_error grants i = Some VUndefined).
Proof.
  intros H.
  destruct (authorizationGrants_follow_grantTypes _ _ H)
    as (settings & grants & Hs & Hg & Hl & Hn).
  exists settings, grants; repeat split; auto.
  - intros ->; rewrite (Hn i _ H0); reflexivity.
  - intros ->; rewrite (Hn i _ H0); reflexivity.
  - intros Hk; rewrite (Hn i _ H0).
    destruct (k =? "implicit") eqn:E1;
      [apply String.eqb_eq in E1; exfalso; apply Hk; simpl; auto |].
    destruct (k =? "authorization_code") eqn:E2;
      [apply String.eqb_eq in E2; exfalso; apply Hk; simpl; auto |].
    rewrite not_prototype_name; [reflexivity |].
    intros C; apply Hk; simpl; auto.
Qed.

Lemma authorizationGrants_one_per_key_witness :
  convertOAuth2 petstore_oauth2 = Ok petstore_oauth2_raml /\
  exists settings grants,
    field petstore_oauth2_raml "settings" = Some (VObj settings) /\
    assoc "authorizationGrants" settings = Some (VArr grants) /\
    List.length grants =
      List.length (entries (read petstore_oauth2 "grantTypes")).
Proof.
  assert (H : convertOAuth2 petstore_oauth2 = Ok petstore_oauth2_raml)
    by (vm_compute; reflexivity).
  split; [exact H |].
  destruct (authorizationGrants_one_per_key _ _ H)
    as (settings & grants & Hs & Hg & Hl & _).
  exists settings, grants; auto.
Defined.

(** X8: the [settings] of a converted OAuth 2.0 authorization hold
    [authorizationGrants] always and no key besides [authorizationGrants],
    [scopes], [authorizationUri] and [accessTokenUri]; [accessTokenUri] is
    there exactly when the authorization has a code grant; without a code
    grant, [authorizationUri] is the [url] of the implicit grant's
    [loginEndpoint], and is absent when that is not set. *)
Theorem oauth2_settings_keys (a : data) (out : raml) :
  convertOAuth2 a = Ok out ->
  let grantTypes := read a "grantTypes" in
  let implicit := read grantTypes "implicit" in
  let authCode := read grantTypes "authorization_code" in
  exists settings,
    field out "settings" = Some (VObj settings) /\
    has_own "authorizationGrants" settings = true /\
    (forall k, In k (map fst settings) ->
               In k [ "authorizationGrants"; "scopes"; "authorizationUri";
                      "accessTokenUri" ]) /\
    has_own "accessTokenUri" settings = truthy authCode /\
    (truthy authCode = false ->
     assoc "authorizationUri" settings =
       if truthy (login_url implicit) then Some (lift (login_url implicit))
       else None).
Proof.
  intros H; apply convertOAuth2_inv in H; cbv zeta in H |- *.
  destruct H as (_ & _ & _ & _ & _ & _ & _ & _ & Hset & _).
  exists (settings_of a); split; [exact Hset |].
  destruct (settings_of_fields a) as (Hg & _ & Hu & Ht); cbv zeta in *.
  unfold has_own; rewrite Hg, Ht.
  split; [reflexivity |]; split; [| split].
  - unfold settings_of; cbv zeta.
    destruct (has_scopes a);
      destruct (truthy (read (read a "grantTypes") "implicit")
                && truthy (login_url (read (read a "grantTypes") "implicit")));
      destruct (truthy (read (read a "grantTypes") "authorization_code"));
      simpl; intros k Hk; tauto.
  - destruct (truthy (read (read a "grantTypes") "authorization_code"));
      reflexivity.
  - intros T; rewrite Hu, T.
    destruct (truthy (read (read a "grantTypes") "implicit")) eqn:Ti;
      cbn [andb]; [reflexivity |].
    unfold login_url; cbv zeta.
    rewrite (falsy_read _ "loginEndpoint" Ti), (falsy_read _ "loginEndpoint" Ti).
    reflexivity.
Qed.

Lemma oauth2_settings_keys_witness :
  convertOAuth2 empty_scopes_authorization = Ok empty_scopes_raml /\
  exists settings,
    field empty_scopes_raml "settings" = Some (VObj settings) /\
    has_own "authorizationGrants" settings = true /\
    has_own "accessTokenUri" settings = false.
Proof.
  assert (H : convertOAuth2 empty_scopes_authorization = Ok empty_scopes_raml)
    by (vm_compute; reflexivity).
  split; [exact H |].
  destruct (oauth2_settings_keys _ _ H) as (settings & Hs & Hg & _ & Ht & _).
  exists settings; auto.
Defined.

Lemma override_line_named (name : data) (standard before after : string) :
  string_or_absent name = true ->
  override_line name standard before after =
  Ok (named_line name standard before after).
Proof.
  unfold override_line, named_line.
  destruct name as [| | b | n | s | l | l | []]; simpl; try discriminate;
    intros _; [reflexivity |].
  destruct (s =? ""); simpl; [reflexivity |].
  destruct (s =? standard); reflexivity.
Qed.

Lemma named_line_falsy (name : data) (standard before after : string) :
  truthy name = false -> named_line name standard before after = [].
Proof.
  unfold named_line; destruct name as [| | b | n | s | l | l | []]; simpl;
    try reflexivity.
  destruct (s =? ""); [reflexivity | discriminate].
Qed.

(** X9: when the four parameter names of the grants are strings or absent,
    the description of a converted OAuth 2.0 authorization is made of these
    entries, in this order and joined by a blank line: the scope block, the
    line of the implicit grant's token name, then the lines of the code
    grant's client id name, client secret name and token name. A name
    contributes its line exactly when it is a non-empty string other than the
    standard name; with no entry at all there is no [description]. *)
Theorem description_entries_in_order (a : data) (out : raml) :
  convertOAuth2 a = Ok out ->
  let grantTypes := read a "grantTypes" in
  let implicit := read grantTypes "implicit" in
  let authCode := read grantTypes "authorization_code" in
  let tokenEndpoint := read authCode "tokenEndpoint" in
  let tokenRequestEndpoint := read authCode "tokenRequestEndpoint" in
  string_or_absent (read implicit "tokenName") = true ->
  string_or_absent (read tokenRequestEndpoint "clientIdName") = true ->
  string_or_absent (read tokenRequestEndpoint "clientSecretName") = true ->
  string_or_absent (read tokenEndpoint "tokenName") = true ->
  exists sl,
    scope_lines a = Ok sl /\
    field out "description" =
      (let d :=
         (scope_block sl
          ++ named_line (read implicit "tokenName") "access_token"
               ("The token grant uses " ++ dquote)
               (dquote ++ " as the token name.")
          ++ named_line (read tokenRequestEndpoint "clientIdName") "client_id"
               ("The code grant uses " ++ dquote)
               (dquote ++ " as the parameter for passing the client id.")
          ++ named_line (read tokenRequestEndpoint "clientSecretName")
               "client_secret"
               ("The code grant uses " ++ dquote)
               (dquote ++ " as the parameter for passing the client secret.")
          ++ named_line (read tokenEndpoint "tokenName") "access_code"
               ("The code grant uses " ++ dquote)
               (dquote
                ++ " as the parameter for passing the authorization token."))%list
       in
       if has_length d then Some (VStr (join (newline ++ newline) d))
       else None).
Proof.
  intros H; apply convertOAuth2_inv in H; cbv zeta in H |- *.
  intros S1 S2 S3 S4.
  destruct H as (sl & il & al & Hsl & Hil & Hal & _ & _ & _ & Hd).
  exists sl; split; [exact Hsl |]; rewrite Hd; clear Hd.
  set (implicit := read (read a "grantTypes") "implicit") in *.
  set (authCode := read (read a "grantTypes") "authorization_code") in *.
  assert (Ei : il = named_line (read implicit "tokenName") "access_token"
                      ("The token grant uses " ++ dquote)
                      (dquote ++ " as the token name.")).
  { unfold implicit_lines in Hil.
    destruct (truthy implicit) eqn:T.
    - rewrite (override_line_named _ _ _ _ S1) in Hil; congruence.
    - rewrite named_line_falsy by (apply falsy_read; exact T); congruence. }
  assert (Ea : al =
               (named_line (read (read authCode "tokenRequestEndpoint")
                              "clientIdName") "client_id"
                  ("The code grant uses " ++ dquote)
                  (dquote ++ " as the parameter for passing the client id.")
                ++ named_line (read (read authCode "tokenRequestEndpoint")
                                 "clientSecretName") "client_secret"
                     ("The code grant uses " ++ dquote)
                     (dquote
                      ++ " as the parameter for passing the client secret.")
                ++ named_line (read (read authCode "tokenEndpoint")
                                 "tokenName") "access_code"
                     ("The code grant uses " ++ dquote)
                     (dquote
                      ++ " as the parameter for passing the authorization token."))%list).
  { unfold authCode_lines in Hal.
    destruct (truthy authCode) eqn:T.
    - cbv zeta in Hal.
      rewrite (override_line_named _ _ _ _ S2),
        (override_line_named _ _ _ _ S3),
        (override_line_named _ _ _ _ S4) in Hal.
      cbn [bind] in Hal; congruence.
    - rewrite !named_line_falsy
        by (apply falsy_read; apply falsy_read; exact T).
      simpl; congruence. }
  rewrite Ei, Ea; reflexivity.
Qed.

Lemma description_entries_in_order_witness :
  convertOAuth2 renaming_authorization = Ok renaming_raml /\
  field renaming_raml "description" =
    Some (VStr (join (newline ++ newline)
      [ "The token grant uses " ++ dquote ++ "token" ++ dquote
        ++ " as the token name.";
        "The code grant uses " ++ dquote ++ "app_id" ++ dquote
        ++ " as the parameter for passing the client id.";
        "The code grant uses " ++ dquote ++ "app_secret" ++ dquote
        ++ " as the parameter for passing the client secret.";
        "The code grant uses " ++ dquote ++ "auth_code" ++ dquote
        ++ " as the parameter for passing the authorization token." ])).
Proof.
  assert (H : convertOAuth2 renaming_authorization = Ok renaming_raml)
    by (vm_compute; reflexivity).
  split; [exact H |].
  destruct (description_entries_in_order _ _ H
              eq_refl eq_refl eq_refl eq_refl) as (sl & Hsl & Hd).
  assert (E : sl = []) by (vm_compute in Hsl; congruence).
  subst sl; rewrite Hd; vm_compute; reflexivity.
Defined.

(** X12: the conversion of one authorization depends on five of its
    properties only: [type], [scopes], [grantTypes], [passAs] and [keyname].
    Two authorizations that agree on them convert alike, whatever else they
    hold. *)
Theorem convertAuthorization_reads_five_properties (a1 a2 : data) :
  nullish a1 = false -> nullish a2 = false ->
  (forall k, In k ["type"; "scopes"; "grantTypes"; "passAs"; "keyname"] ->
             read a1 k = read a2 k) ->
  convertAuthorization a1 = convertAuthorization a2.
Proof.
  intros N1 N2 H.
  assert (Ht : read a1 "type" = read a2 "type") by (apply H; simpl; tauto).
  assert (Hs : read a1 "scopes" = read a2 "scopes")
    by (apply H; simpl; tauto).
  assert (Hg : read a1 "grantTypes" = read a2 "grantTypes")
    by (apply H; simpl; tauto).
  assert (Hp : read a1 "passAs" = read a2 "passAs")
    by (apply H; simpl; tauto).
  assert (Hk : read a1 "keyname" = read a2 "keyname")
    by (apply H; simpl; tauto).
  rewrite !convertAuthorization_eq, !convertOAuth2_eq, !convertApiKey_eq.
  unfold scope_lines, settings_of, has_scopes, scope_names; cbv zeta.
  rewrite N1, N2, Ht, Hs, Hg, Hp, Hk; reflexivity.
Qed.

Lemma convertAuthorization_reads_five_properties_witness :
  convertAuthorization renaming_authorization =
  convertAuthorization renaming_with_more_keys.
Proof.
  apply convertAuthorization_reads_five_properties;
    [reflexivity | reflexivity |].
  intros k Hk; simpl in Hk.
  repeat (destruct Hk as [<- | Hk]; [reflexivity |]); destruct Hk.
Defined.

(** X13: a [scopes] that is absent, falsy or the empty array is skipped.
    The converted authorization is the one of the same authorization without
    [scopes]: its settings have no [scopes] key, and its description holds
    the entries of the grants only, so there is no description at all when
    the grants rename nothing. *)
Theorem empty_scopes_are_skipped (a : data) (out : raml) :
  convertOAuth2 a = Ok out ->
  truthy (read a "scopes") = false \/ read a "scopes" = VArr [] ->
  (exists settings il al,
     field out "settings" = Some (VObj settings) /\
     has_own "scopes" settings = false /\
     implicit_lines (read (read a "grantTypes") "implicit") = Ok il /\
     authCode_lines (read (read a "grantTypes") "authorization_code")
       = Ok al /\
     field out "description" =
       match (il ++ al)%list with
       | [] => None
       | first :: more =>
           Some (VStr (first
                       ++ String.concat ""
                            (map (fun entry => newline ++ newline ++ entry)
                                 more)))
       end) /\
  forall a' : data,
    nullish a' = false ->
    read a' "scopes" = VUndefined ->
    read a' "grantTypes" = read a "grantTypes" ->
    convertOAuth2 a' = Ok out.
Proof.
  intros H Hs.
  assert (E : has_scopes a = false).
  { unfold has_scopes; cbv zeta; destruct Hs as [-> | ->]; reflexivity. }
  split.
  - apply convertOAuth2_inv in H; cbv zeta in H.
    destruct H as (sl & il & al & Hsl & Hil & Hal & _ & _ & Hset & Hd).
    unfold scope_lines in Hsl; rewrite E in Hsl; injection Hsl as <-.
    exists (settings_of a), il, al; repeat split; auto.
    + destruct (settings_of_fields a) as (_ & Hsc & _); cbv zeta in Hsc.
      unfold has_own; rewrite Hsc, E; reflexivity.
    + rewrite Hd, description_text; reflexivity.
  - intros a' N' Hs' Hg'; rewrite <- H, !convertOAuth2_eq; cbv zeta.
    assert (N : nullish a = false).
    { destruct (nullish a) eqn:N; [| reflexivity].
      rewrite convertOAuth2_eq, N in H; discriminate. }
    assert (E' : has_scopes a' = false)
      by (unfold has_scopes; rewrite Hs'; reflexivity).
    unfold scope_lines, settings_of; cbv zeta.
    rewrite N, N', E, E', Hg'; reflexivity.
Qed.

Lemma empty_scopes_are_skipped_witness :
  convertOAuth2 empty_scopes_authorization =
    Ok (VObj [ ("type", VStr "OAuth 2.0");
               ("settings",
                VObj [ ("authorizationGrants", VArr [ VStr "token" ]) ]) ]) /\
  read empty_scopes_authorization "scopes" = VArr [] /\
  convertOAuth2 (VObj [ ("grantTypes", VObj [ ("implicit", VObj []) ]) ]) =
    Ok (VObj [ ("type", VStr "OAuth 2.0");
               ("settings",
                VObj [ ("authorizationGrants", VArr [ VStr "token" ]) ]) ]).
Proof.
  assert (H : convertOAuth2 empty_scopes_authorization =
              Ok (VObj [ ("type", VStr "OAuth 2.0");
                         ("settings",
                          VObj [ ("authorizationGrants",
                                  VArr [ VStr "token" ]) ]) ]))
    by (vm_compute; reflexivity).
  split; [exact H |]; split; [reflexivity |].
  apply (proj2 (empty_scopes_are_skipped _ _ H (or_intror eq_refl)));
    reflexivity.
Defined.

(** X14: a [scopes] array that holds [null] or [undefined] anywhere makes
    the conversion of the authorization throw a [TypeError], whatever the
    rest of the authorization is. *)
Theorem null_scope_throws (a : data) (scopes : list data) (scope : data) :
  read a "scopes" = VArr scopes ->
  In scope scopes ->
  nullish scope = true ->
  convertOAuth2 a = Throw TypeError.
Proof.
  intros Hs Hin Hn; rewrite convertOAuth2_eq; cbv zeta.
  destruct (nullish a || nullish (read a "grantTypes")); [reflexivity |].
  assert (Hne : scopes <> []) by (intros ->; destruct Hin).
  unfold scope_lines; rewrite (has_scopes_array _ _ Hs Hne), Hs.
  match goal with
  | |- context [forallb ?f scopes] =>
      destruct (forallb f scopes) eqn:F; [| reflexivity]
  end.
  rewrite forallb_forall in F; specialize (F _ Hin).
  rewrite Hn in F; discriminate.
Qed.

Lemma null_scope_throws_witness :
  convertOAuth2 null_scope_authorization = Throw TypeError.
Proof.
  apply (null_scope_throws null_scope_authorization
           [ VObj [ ("scope", VStr "read") ]; VNull ] VNull);
    [reflexivity | simpl; auto | reflexivity].
Defined.

(** * Further properties: which sections are converted *)

(** X15: in a converted document a section is present exactly when its
    source is truthy: [title] with [info], [resources] with [apis],
    [securitySchemes] with [authorizations] and [version] with
    [apiVersion].  So an empty [apis] array gives an empty [resources], and
    an empty [apiVersion] string gives no [version]. *)
Theorem section_present_iff_source_truthy (resource : data) (out : raml) :
  converter resource = Ok out ->
  (field out "title" <> None <-> truthy (read resource "info") = true) /\
  (field out "resources" <> None <-> truthy (read resource "apis") = true) /\
  (field out "securitySchemes" <> None
   <-> truthy (read resource "authorizations") = true) /\
  (field out "version" <> None
   <-> truthy (read resource "apiVersion") = true).
Proof.
  intros H.
  destruct (converter_fields _ _ H) as (Ht & _ & Hr & Hs & Hv);
    cbv zeta in *.
  rewrite Ht, Hv; clear Ht Hv.
  destruct (truthy (read resource "info"));
    destruct (truthy (read resource "apis"));
    destruct (truthy (read resource "authorizations"));
    destruct (truthy (read resource "apiVersion"));
    repeat match goal with
           | Hx : exists _, _ |- _ => destruct Hx as (? & ? & Hx)
           end;
    rewrite Hr, Hs;
    repeat split; intros; congruence.
Qed.

Lemma section_present_iff_source_truthy_witness :
  converter empty_sections = Ok (VObj [ ("title", VUndefined);
                                        ("resources", VArr []);
                                        ("securitySchemes", VArr []) ]) /\
  field (VObj [ ("title", VUndefined); ("resources", VArr []);
                ("securitySchemes", VArr []) ] : raml) "resources" <> None.
Proof.
  assert (H : converter empty_sections
              = Ok (VObj [ ("title", VUndefined); ("resources", VArr []);
                           ("securitySchemes", VArr []) ]))
    by (vm_compute; reflexivity).
  split; [exact H |].
  destruct (section_present_iff_source_truthy _ _ H) as (_ & Hr & _).
  apply Hr; reflexivity.
Defined.

(** X16: an [apis] that is truthy but not an array, such as a mapping from
    names to apis, makes the conversion of the document throw a
    [TypeError]; so does an [apis] array that holds [null] or
    [undefined]. *)
Theorem apis_must_be_an_array_of_objects (resource : data) :
  truthy (read resource "apis") = true ->
  (forall l, read resource "apis" = VArr l ->
             exists api, In api l /\ nullish api = true) ->
  converter resource = Throw TypeError.
Proof.
  intros T Hl; apply returns_throw; rewrite returns_converter.
  unfold well_formed, well_formed_apis; rewrite T; cbn [negb orb].
  destruct (read resource "apis") as [| | b | n | s | l | l | []];
    try (rewrite andb_false_r; reflexivity).
  destruct (Hl l eq_refl) as (api & Hin & Hn).
  destruct (forallb _ l) eqn:F;
    [| rewrite andb_false_r; reflexivity].
  rewrite forallb_forall in F; specialize (F _ Hin).
  rewrite Hn in F; discriminate.
Qed.

Lemma apis_must_be_an_array_of_objects_witness :
  converter apis_as_mapping = Throw TypeError.
Proof.
  apply apis_must_be_an_array_of_objects; [reflexivity |].
  intros l Hl; vm_compute in Hl; discriminate.
Defined.
